(** * Universal-Scrap: the page classifier and the extraction strategies

    A shallow embedding of [src/universal_scraper.py] (class
    [UniversalScraper]) and the properties its specification states.

    The parsed document (a BeautifulSoup tree) is a rose tree of text
    nodes and elements.  Python dictionaries are insertion-ordered
    association lists, Python values a small tagged union.  The browser
    (Playwright) and the CSS selector engine (soupsieve) are external:
    they are Section variables of the development. *)

From Stdlib Require Import List String Ascii Bool Arith ZArith Lia Sorted.
From Stdlib Require Import Numbers.DecimalString.
From Stdlib Require OrderedTypeEx.
Import ListNotations.
Open Scope string_scope.
Open Scope list_scope.
Open Scope nat_scope.
Set Warnings "-register-all".

(** ** Text: [str] operations used by the scraper

    A character is a code point below 256. *)

Module PyStr.

(** [str.isspace] on one character. *)
Definition is_space (c : ascii) : bool :=
  let n := nat_of_ascii c in
  ((9 <=? n) && (n <=? 13)) || ((28 <=? n) && (n <=? 32))
  || (n =? 133) || (n =? 160).

(** [str.lower] on one character. *)
Definition lower_char (c : ascii) : ascii :=
  let n := nat_of_ascii c in
  if ((65 <=? n) && (n <=? 90))
     || ((192 <=? n) && (n <=? 222) && negb (n =? 215))
  then ascii_of_nat (n + 32) else c.

Fixpoint lower (s : string) : string :=
  match s with
  | EmptyString => EmptyString
  | String c s' => String (lower_char c) (lower s')
  end.

Fixpoint lstrip (s : string) : string :=
  match s with
  | EmptyString => EmptyString
  | String c s' => if is_space c then lstrip s' else s
  end.

(** Strips trailing white space: a character is kept when something
    non-blank follows it or it is itself non-blank. *)
Fixpoint rstrip (s : string) : string :=
  match s with
  | EmptyString => EmptyString
  | String c s' =>
      match rstrip s' with
      | EmptyString => if is_space c then EmptyString else String c EmptyString
      | r => String c r
      end
  end.

(** [s.strip()] *)
Definition strip (s : string) : string := rstrip (lstrip s).

(** [s[:n]] *)
Fixpoint take (n : nat) (s : string) : string :=
  match n, s with
  | S n', String c s' => String c (take n' s')
  | _, _ => EmptyString
  end.

(** [sep.join(l)] *)
Fixpoint join (sep : string) (l : list string) : string :=
  match l with
  | [] => EmptyString
  | [x] => x
  | x :: rest => String.append x (String.append sep (join sep rest))
  end.

(** [len(s.split())]: the number of maximal runs of non-blank
    characters.  [inword] tells whether the previous character was
    non-blank. *)
Fixpoint count_words_from (inword : bool) (s : string) : nat :=
  match s with
  | EmptyString => 0
  | String c s' =>
      if is_space c then count_words_from false s'
      else (if inword then 0 else 1) + count_words_from true s'
  end.

Definition count_words (s : string) : nat := count_words_from false s.

(** [bool(s)] *)
Definition nonempty (s : string) : bool :=
  match s with EmptyString => false | _ => true end.

(** If [p] is a prefix of [s], what follows it. *)
Fixpoint drop_prefix (p s : string) : option string :=
  match p, s with
  | EmptyString, _ => Some s
  | String a p', String b s' =>
      if Ascii.eqb a b then drop_prefix p' s' else None
  | String _ _, EmptyString => None
  end.

(** [needle in hay] *)
Fixpoint contains (needle hay : string) : bool :=
  match drop_prefix needle hay with
  | Some _ => true
  | None =>
      match hay with
      | EmptyString => false
      | String _ hay' => contains needle hay'
      end
  end.

(** [str(n)] for a natural number. *)
Definition of_nat (n : nat) : string :=
  NilEmpty.string_of_uint (Nat.to_uint n).

End PyStr.

(** ** Regular expressions

    Every pattern the scraper compiles is an alternation of literals,
    or of literals separated by [.*]: [product|item],
    [product.*name|title], [grid-item], ...  A pattern is the list of
    its alternatives; an alternative is the list of its literals, to be
    found in that order with any run of non-newline characters between
    two of them. *)

Module Re.

Definition pattern := list (list string).

Definition is_newline (c : ascii) : bool := nat_of_ascii c =? 10.

(** The alternative matches at the very start of [s]. *)
Fixpoint match_here (segs : list string) (s : string) {struct segs} : bool :=
  match segs with
  | [] => true
  | seg :: rest =>
      match PyStr.drop_prefix seg s with
      | None => false
      | Some s' =>
          (fix gap (t : string) : bool :=
             match_here rest t
             || match t with
                | EmptyString => false
                | String c t' => if is_newline c then false else gap t'
                end) s'
      end
  end.

(** [re.compile(pat).search(s)] as a truth value. *)
Fixpoint search (pat : pattern) (s : string) : bool :=
  existsb (fun alt => match_here alt s) pat
  || match s with
     | EmptyString => false
     | String _ s' => search pat s'
     end.

(** [re.compile(r'a|b|c')] *)
Definition alt (lits : list string) : pattern := map (fun l => [l]) lits.

End Re.

(** ** The parsed document *)

(** A node of the tree: a text string (one that [get_text] yields:
    comments and scripts are not kept), or an element with its tag name,
    its [class] attribute (absent, or the list of its white-space
    separated tokens: BeautifulSoup treats [class] as multi-valued), its
    other attributes and its children. *)
Inductive node : Type :=
| Text (s : string)
| Elem (name : string) (cls : option (list string))
       (attrs : list (string * string)) (children : list node).

Definition children (n : node) : list node :=
  match n with
  | Text _ => []
  | Elem _ _ _ cs => cs
  end.

Definition is_elem (n : node) : bool :=
  match n with Text _ => false | Elem _ _ _ _ => true end.

Definition tag_name (n : node) : option string :=
  match n with Text _ => None | Elem nm _ _ _ => Some nm end.

(** The parser's root object [soup] holding the top-level nodes. *)
Definition document (cs : list node) : node := Elem "[document]" None [] cs.

(** All nodes below [n], in document order. *)
Fixpoint descendants (n : node) : list node :=
  match n with
  | Text _ => []
  | Elem _ _ _ cs => flat_map (fun c => c :: descendants c) cs
  end.

(** [tag.get(key)]: [None] when the attribute is missing. *)
Fixpoint assoc {A : Type} (k : string) (l : list (string * A)) : option A :=
  match l with
  | [] => None
  | (k', v) :: rest => if String.eqb k k' then Some v else assoc k rest
  end.

Definition get_attr (key : string) (n : node) : option string :=
  match n with
  | Text _ => None
  | Elem _ _ attrs _ => assoc key attrs
  end.

(** ** Queries of the DOM facade *)

(** A tag name is one of [names]: [find_all('table')],
    [find_all(['ul', 'ol'])]. *)
Definition name_in (names : list string) (n : node) : bool :=
  match n with
  | Text _ => false
  | Elem nm _ _ _ => existsb (String.eqb nm) names
  end.

(** [class_=re.compile(pat)]: some token of the class matches, or the
    tokens joined by a blank do; an element with no [class] never
    matches. *)
Definition class_matches (pat : Re.pattern) (n : node) : bool :=
  match n with
  | Elem _ (Some toks) _ _ =>
      existsb (Re.search pat) toks || Re.search pat (PyStr.join " " toks)
  | _ => false
  end.

(** [node.find_all(...)] with the filter [f], over all descendants. *)
Definition find_all (f : node -> bool) (n : node) : list node :=
  filter f (descendants n).

(** [node.find_all(..., recursive=False)]: direct children only. *)
Definition find_all_direct (f : node -> bool) (n : node) : list node :=
  filter f (children n).

(** [node.find(...)]: the first match or [None]. *)
Definition find (f : node -> bool) (n : node) : option node :=
  match find_all f n with
  | [] => None
  | x :: _ => Some x
  end.

(** The text strings below a node, in document order. *)
Fixpoint strings (n : node) : list string :=
  match n with
  | Text s => [s]
  | Elem _ _ _ cs => flat_map strings cs
  end.

(** [node.get_text()] *)
Definition get_text (n : node) : string := PyStr.join "" (strings n).

(** [node.get_text(strip=True)]: every string is stripped, the empty
    ones are skipped. *)
Definition get_text_strip (n : node) : string :=
  PyStr.join "" (filter PyStr.nonempty (map PyStr.strip (strings n))).

(** [heading.find_next_sibling()] needs the siblings that follow a
    node: every node below [n] with its later siblings, in document
    order. *)
Fixpoint descendants_ctx (n : node) : list (node * list node) :=
  match n with
  | Text _ => []
  | Elem _ _ _ cs =>
      (fix walk (l : list node) : list (node * list node) :=
         match l with
         | [] => []
         | c :: rest => (c, rest) :: descendants_ctx c ++ walk rest
         end) cs
  end.

(** The first element among the later siblings. *)
Definition next_sibling_of (later : list node) : option node :=
  match filter is_elem later with
  | [] => None
  | x :: _ => Some x
  end.

(** ** Python values and dictionaries *)

(** The values a record holds. *)
Inductive pyval : Type :=
| VStr (s : string)
| VInt (z : Z)
| VNone
| VList (l : list pyval)
| VDict (d : list (string * pyval)).

(** A [dict]: keys in insertion order, no key twice. *)
Definition dict (A : Type) : Type := list (string * A).

Definition record : Type := dict pyval.

(** [d[k] = v]: an existing key keeps its place. *)
Fixpoint dict_set {A : Type} (k : string) (v : A) (d : dict A) : dict A :=
  match d with
  | [] => [(k, v)]
  | (k', v') :: rest =>
      if String.eqb k k' then (k', v) :: rest
      else (k', v') :: dict_set k v rest
  end.

(** [bool(d)] *)
Definition dict_nonempty {A : Type} (d : dict A) : bool :=
  match d with [] => false | _ => true end.

(** [bool(v)] *)
Definition truthy (v : pyval) : bool :=
  match v with
  | VStr s => PyStr.nonempty s
  | VInt z => negb (Z.eqb z 0)
  | VNone => false
  | VList l => match l with [] => false | _ => true end
  | VDict d => dict_nonempty d
  end.

(** [d.get(k)] as a truth value. *)
Definition get_truthy (k : string) (d : record) : bool :=
  match assoc k d with
  | Some v => truthy v
  | None => false
  end.

(** [tag.get(k)] as a value. *)
Definition attr_val (k : string) (n : node) : pyval :=
  match get_attr k n with
  | Some s => VStr s
  | None => VNone
  end.

(** [a or b] on values. *)
Definition py_or (a b : pyval) : pyval := if truthy a then a else b.

(** [a or b] on the results of [find]: a tag is always true. *)
Definition or_node (a b : option node) : option node :=
  match a with
  | Some x => Some x
  | None => b
  end.

(** [enumerate(l)] *)
Definition enumerate {A : Type} (l : list A) : list (nat * A) :=
  combine (seq 0 (List.length l)) l.

Definition vint (n : nat) : pyval := VInt (Z.of_nat n).

(** [if link and link.get('href'): d['link'] = link.get('href')] *)
Definition set_link (container : node) (d : record) : record :=
  match find (name_in ["a"]) container with
  | Some link =>
      if truthy (attr_val "href" link)
      then dict_set "link" (attr_val "href" link) d
      else d
  | None => d
  end.

(** [if img: d['image'] = img.get('src') or img.get('data-src')] *)
Definition set_image (container : node) (d : record) : record :=
  match find (name_in ["img"]) container with
  | Some img =>
      dict_set "image" (py_or (attr_val "src" img) (attr_val "data-src" img)) d
  | None => d
  end.

(** [if e: d[k] = e.get_text(strip=True)] *)
Definition set_text (k : string) (e : option node) (d : record) : record :=
  match e with
  | Some x => dict_set k (VStr (get_text_strip x)) d
  | None => d
  end.

(** ** Control flow *)

(** [for x in l: ... return v ...]: the value of the first iteration
    that returns, [None] when the loop runs to its end. *)
Fixpoint for_return {A B : Type} (body : A -> option B) (l : list A) : option B :=
  match l with
  | [] => None
  | x :: rest =>
      match body x with
      | Some v => Some v
      | None => for_return body rest
      end
  end.

(** Statements in sequence, the first [return] wins. *)
Definition or_next {B : Type} (stmt : option B) (next : option B) : option B :=
  match stmt with
  | Some v => Some v
  | None => next
  end.

(** ** The page classifier *)

(** The labels [_detect_page_type] returns. *)
Inductive page_type : Type :=
| PTable | PEcommerce | PCards | PList | PArticle | PGeneric.

(** The string the code uses for each label. *)
Definition label (t : page_type) : string :=
  match t with
  | PTable => "table"
  | PEcommerce => "ecommerce"
  | PCards => "cards"
  | PList => "list"
  | PArticle => "article"
  | PGeneric => "generic"
  end.

Definition ecommerce_indicators : list string :=
  ["product"; "item"; "price"; "cart"; "buy"].

Definition article_indicators : list string :=
  ["article"; "post"; "blog"; "content"].

(** [# Check for tables] *)
Definition check_tables (soup : node) : option page_type :=
  let tables := find_all (name_in ["table"]) soup in
  if 0 <? List.length tables then
    for_return
      (fun table =>
         let rows := find_all (name_in ["tr"]) table in
         if 2 <? List.length rows then Some PTable else None)
      tables
  else None.

(** [# Check for product listings (ecommerce)] *)
Definition check_ecommerce (soup : node) : option page_type :=
  let page_text := PyStr.lower (get_text soup) in
  if existsb (fun indicator => PyStr.contains indicator page_text)
             ecommerce_indicators
  then
    let products := find_all (class_matches (Re.alt ["product"; "item"])) soup in
    if 3 <? List.length products then Some PEcommerce else None
  else None.

(** [# Check for cards/grid layout] *)
Definition check_cards (soup : node) : option page_type :=
  let card_selectors :=
    [ find_all (class_matches (Re.alt ["card"])) soup;
      find_all (class_matches (Re.alt ["tile"])) soup;
      find_all (class_matches (Re.alt ["grid-item"])) soup ] in
  for_return
    (fun cards => if 3 <? List.length cards then Some PCards else None)
    card_selectors.

(** [# Check for lists] *)
Definition check_lists (soup : node) : option page_type :=
  let lists := find_all (name_in ["ul"; "ol"]) soup in
  for_return
    (fun lst =>
       let items := find_all (name_in ["li"]) lst in
       if 5 <? List.length items then Some PList else None)
    lists.

(** [# Check for article/blog post] *)
Definition check_article (soup : node) : option page_type :=
  let has (o : option node) : bool :=
    match o with Some _ => true | None => false end in
  if has (find (name_in ["article"]) soup)
     || existsb
          (fun indicator => has (find (class_matches (Re.alt [indicator])) soup))
          article_indicators
  then Some PArticle else None.

(** [UniversalScraper._detect_page_type] *)
Definition _detect_page_type (soup : node) (url : string) : page_type :=
  match
    or_next (check_tables soup)
      (or_next (check_ecommerce soup)
         (or_next (check_cards soup)
            (or_next (check_lists soup) (check_article soup))))
  with
  | Some t => t
  | None => PGeneric
  end.

(** ** The extraction strategies *)

(** The header names of a table whose first row is [header_row]. *)
Definition table_headers (header_row : node) : list string :=
  let headers :=
    map get_text_strip (find_all (name_in ["th"; "td"]) header_row) in
  if negb (0 <? List.length headers) || forallb (fun h => String.eqb h "") headers
  then
    map (fun i => String.append "Column_" (PyStr.of_nat (i + 1)))
        (seq 0 (List.length (find_all (name_in ["th"; "td"]) header_row)))
  else headers.

(** The [row_data] of one data row: the cells paired with the headers
    by position, [table_cell] being one iteration of
    [for idx, cell in enumerate(cells)]. *)
Definition table_cell (headers : list string) (row_data : record)
           (ic : nat * node) : record :=
  let (idx, cell) := ic in
  if idx <? List.length headers
  then dict_set (nth idx headers "") (VStr (get_text_strip cell)) row_data
  else row_data.

Definition table_row_data (headers : list string) (cells : list node) : record :=
  fold_left (table_cell headers) (enumerate cells) [].

(** One iteration of [for row in rows[1:]]: the records appended. *)
Definition table_row (headers : list string) (table_idx : nat) (row : node)
  : list record :=
  let cells := find_all (name_in ["td"; "th"]) row in
  if List.length cells =? 0 then []
  else
    let row_data := table_row_data headers cells in
    if dict_nonempty row_data
    then [dict_set "_table_index" (vint table_idx) row_data]
    else [].

(** One iteration of [for table_idx, table in enumerate(tables)]. *)
Definition scrape_table (table_idx : nat) (table : node) : list record :=
  let rows := find_all (name_in ["tr"]) table in
  if List.length rows <? 2 then []
  else
    match rows with
    | [] => []
    | header_row :: data_rows =>
        flat_map (table_row (table_headers header_row) table_idx) data_rows
    end.

(** [UniversalScraper._scrape_tables] *)
Definition _scrape_tables (soup : node) : list record :=
  let tables := find_all (name_in ["table"]) soup in
  flat_map (fun it => scrape_table (fst it) (snd it)) (enumerate tables).

(** The record of one list item. *)
Definition list_item (list_idx : nat) (item_idx : nat) (item : node) : record :=
  set_link item
    [ ("text", VStr (get_text_strip item));
      ("_list_index", vint list_idx);
      ("_item_index", vint item_idx) ].

(** One iteration of [for list_idx, lst in enumerate(lists)]. *)
Definition scrape_list (list_idx : nat) (lst : node) : list record :=
  let items := find_all_direct (name_in ["li"]) lst in
  if List.length items <? 3 then []
  else map (fun ii => list_item list_idx (fst ii) (snd ii)) (enumerate items).

(** [UniversalScraper._scrape_lists] *)
Definition _scrape_lists (soup : node) : list record :=
  let lists := find_all (name_in ["ul"; "ol"]) soup in
  flat_map (fun il => scrape_list (fst il) (snd il)) (enumerate lists).

(** The class patterns [_scrape_cards] tries, in its order. *)
Definition card_selectors : list Re.pattern :=
  [ Re.alt ["card"]; Re.alt ["tile"]; Re.alt ["grid-item"]; Re.alt ["box"] ].

(** [soup.find_all('div', {'class': selector})] *)
Definition find_divs (selector : Re.pattern) (soup : node) : list node :=
  find_all (fun n => name_in ["div"] n && class_matches selector n) soup.

(** One iteration of [for selector in card_selectors], on the current
    [cards]. *)
Definition better_cards (soup : node) (cards : list node) (selector : Re.pattern)
  : list node :=
  let found := find_divs selector soup in
  if List.length cards <? List.length found then found else cards.

(** The candidate set [_scrape_cards] extracts from. *)
Definition select_cards (soup : node) : list node :=
  fold_left (better_cards soup) card_selectors [].

Definition headings : list string := ["h1"; "h2"; "h3"; "h4"; "h5"; "h6"].

(** The record of one card. *)
Definition card_record (card_idx : nat) (card : node) : record :=
  let d0 : record := [("_card_index", vint card_idx)] in
  let title :=
    or_node (find (name_in headings) card)
            (find (class_matches (Re.alt ["title"; "heading"])) card) in
  let d1 := set_text "title" title d0 in
  let desc :=
    find (class_matches (Re.alt ["description"; "excerpt"; "summary"])) card in
  let d2 := set_text "description" desc d1 in
  let d3 := set_link card d2 in
  let d4 := set_image card d3 in
  match assoc "title" d4 with
  | Some _ => d4
  | None => dict_set "text" (VStr (PyStr.take 200 (get_text_strip card))) d4
  end.

(** [UniversalScraper._scrape_cards] *)
Definition _scrape_cards (soup : node) : list record :=
  map (fun ic => card_record (fst ic) (snd ic)) (enumerate (select_cards soup)).

Definition newline2 : string :=
  String (ascii_of_nat 10) (String (ascii_of_nat 10) EmptyString).

(** [UniversalScraper._scrape_article] *)
Definition _scrape_article (soup : node) (url : string) : record :=
  let d0 : record := [("url", VStr url)] in
  let title :=
    or_node (find (name_in ["h1"]) soup)
      (or_node (find (class_matches (Re.alt ["title"])) soup)
               (find (name_in ["title"]) soup)) in
  let d1 := set_text "title" title d0 in
  let author :=
    find (class_matches (Re.alt ["author"; "byline"; "writer"])) soup in
  let d2 := set_text "author" author d1 in
  let date :=
    or_node (find (name_in ["time"; "date"]) soup)
            (find (class_matches (Re.alt ["date"; "published"])) soup) in
  let d3 := set_text "date" date d2 in
  let content :=
    or_node (find (name_in ["article"]) soup)
      (or_node
         (find (class_matches (Re.alt ["content"; "article"; "post-body"])) soup)
         (find (name_in ["main"]) soup)) in
  let d4 :=
    match content with
    | Some c =>
        let paragraphs := find_all (name_in ["p"]) c in
        let text := PyStr.join newline2 (map get_text_strip paragraphs) in
        dict_set "word_count" (vint (PyStr.count_words text))
                 (dict_set "content" (VStr text) d3)
    | None => d3
    end in
  let images := find_all (name_in ["img"]) soup in
  let srcs :=
    map (fun img => py_or (attr_val "src" img) (attr_val "data-src" img))
        (filter
           (fun img => truthy (py_or (attr_val "src" img) (attr_val "data-src" img)))
           images) in
  dict_set "images" (VList srcs) d4.

(** The [prod_data] of one candidate, before the test that keeps or
    drops it. *)
Definition product_data (prod_idx : nat) (product : node) : record :=
  let d0 : record := [("_product_index", vint prod_idx)] in
  let name :=
    or_node (find (class_matches [["product"; "name"]; ["title"]]) product)
            (find (name_in ["h2"; "h3"; "h4"]) product) in
  let d1 := set_text "name" name d0 in
  let price := find (class_matches (Re.alt ["price"])) product in
  let d2 := set_text "price" price d1 in
  let rating := find (class_matches (Re.alt ["rating"; "stars"])) product in
  let d3 := set_text "rating" rating d2 in
  let d4 := set_link product d3 in
  set_image product d4.

(** [if prod_data.get('name') or prod_data.get('price')] *)
Definition product_kept (prod_data : record) : bool :=
  get_truthy "name" prod_data || get_truthy "price" prod_data.

(** The candidates of [_scrape_products]. *)
Definition product_candidates (soup : node) : list node :=
  find_all (class_matches (Re.alt ["product"; "item"])) soup.

(** [UniversalScraper._scrape_products] *)
Definition _scrape_products (soup : node) : list record :=
  filter product_kept
    (map (fun ip => product_data (fst ip) (snd ip))
         (enumerate (product_candidates soup))).

(** The record of one heading, [later] being its later siblings. *)
Definition heading_record (heading : node) (later : list node) : record :=
  let item : record :=
    [ ("type", match tag_name heading with Some nm => VStr nm | None => VNone end);
      ("text", VStr (get_text_strip heading)) ] in
  match next_sibling_of later with
  | Some sibling =>
      dict_set "content" (VStr (PyStr.take 500 (get_text_strip sibling))) item
  | None => item
  end.

(** [tag.get('href')] on a tag found with [href=True]. *)
Definition href_of (link : node) : string :=
  match get_attr "href" link with Some h => h | None => "" end.

(** The [unique_links] dictionary of [_scrape_generic]. *)
Definition unique_links (soup : node) : dict string :=
  let links :=
    find_all
      (fun n => name_in ["a"] n
                && match get_attr "href" n with Some _ => true | None => false end)
      soup in
  fold_left
    (fun (acc : dict string) (link : node) =>
       let href := href_of link in
       let text := get_text_strip link in
       if PyStr.nonempty href && PyStr.nonempty text && (2 <? String.length text)
       then dict_set href text acc
       else acc)
    links [].

(** [UniversalScraper._scrape_generic] *)
Definition _scrape_generic (soup : node) : list record :=
  let data :=
    map (fun hl => heading_record (fst hl) (snd hl))
        (filter (fun hl => name_in headings (fst hl)) (descendants_ctx soup)) in
  let ul := unique_links soup in
  if dict_nonempty ul
  then
    data
    ++ [ [ ("type", VStr "links");
           ("links",
            VList (map (fun kv => VDict [("url", VStr (fst kv)); ("text", VStr (snd kv))])
                       ul)) ] ]
  else data.

(** ** Exceptions *)

(** The exceptions the modelled code can meet: the selector engine
    rejects a selector it cannot parse; the browser fails to load a
    page. *)
Inductive exn : Type :=
| SelectorSyntaxError (selector : string)
| BrowserError (url : string).

Inductive result (A : Type) : Type :=
| Ok (a : A)
| Raise (e : exn).

Arguments Ok {A} a.
Arguments Raise {A} e.

Definition bind {A B : Type} (c : result A) (k : A -> result B) : result B :=
  match c with
  | Ok a => k a
  | Raise e => Raise e
  end.

Notation "x <- c1 ;; c2" := (bind c1 (fun x => c2))
  (at level 61, c1 at next level, right associativity).

(** [for x in l: s = body(s, x)], an exception ending the loop. *)
Fixpoint for_each {A S : Type} (body : S -> A -> result S) (l : list A) (s : S)
  : result S :=
  match l with
  | [] => Ok s
  | x :: rest => s' <- body s x ;; for_each body rest s'
  end.

(** ** The dispatcher *)

(** The [config] dictionary of [scrape_url]: the keys the code reads.
    [pagination] is the truth value of [config.get('pagination')]. *)
Record config : Type := {
  selectors : option (dict string);
  pagination : bool;
  max_pages : option Z;
  next_button : option string
}.

(** The calls the dispatcher makes to the extractor and the classifier,
    each with the document it is given. *)
Inductive call : Type :=
| Call_scrape_with_selectors (soup : node)
| Call_auto_detect_and_scrape (soup : node)
| Call_detect_page_type (soup : node).

Definition is_classifier_call (c : call) : bool :=
  match c with
  | Call_detect_page_type _ => true
  | _ => false
  end.

Section Dispatcher.

(** The CSS selector engine behind [soup.select]: its syntax check, and
    the nodes below a node that a well-formed selector matches, in
    document order. *)
Variable selector_valid : string -> bool.
Variable select_nodes : string -> node -> list node.

(** The browser: a page is loaded from a URL or the load fails; a click
    on a selector leads to a new page state or times out; a page state
    has a parsed content and a URL. *)
Variable page : Type.
Variable goto : string -> option page.
Variable click : page -> string -> option page.
Variable content : page -> node.
Variable page_url : page -> string.

(** [node.select(selector)] *)
Definition select (selector : string) (n : node) : result (list node) :=
  if selector_valid selector then Ok (select_nodes selector n)
  else Raise (SelectorSyntaxError selector).

(** [node.select_one(selector)] *)
Definition select_one (selector : string) (n : node) : result (option node) :=
  l <- select selector n ;;
  Ok match l with
     | [] => None
     | x :: _ => Some x
     end.

(** One iteration of [for field_name, selector in selectors.items()]. *)
Definition selector_field (container : node) (item : record)
           (fs : string * string) : result record :=
  let (field_name, selector) := fs in
  if String.eqb field_name "container" then Ok item
  else
    elem <- select_one selector container ;;
    Ok (set_text field_name elem item).

(** One iteration of [for container in containers]. *)
Definition selector_container (selectors : dict string) (data : list record)
           (container : node) : result (list record) :=
  item <- for_each (selector_field container) selectors [] ;;
  Ok (if dict_nonempty item then data ++ [item] else data).

(** [selectors.get('container', 'body')] *)
Definition main_selector (selectors : dict string) : string :=
  match assoc "container" selectors with
  | Some s => s
  | None => "body"
  end.

(** [UniversalScraper._scrape_with_selectors] *)
Definition _scrape_with_selectors (soup : node) (selectors : dict string)
  : result (list record) :=
  containers <- select (main_selector selectors) soup ;;
  for_each (selector_container selectors) containers [].

(** [UniversalScraper._auto_detect_and_scrape], with the calls it
    makes; its [page] argument is not used by the code. *)
Definition _auto_detect_and_scrape (soup : node) (url : string)
  : list call * list record :=
  let page_type := _detect_page_type soup url in
  ([Call_detect_page_type soup],
   match page_type with
   | PTable => _scrape_tables soup
   | PList => _scrape_lists soup
   | PCards => _scrape_cards soup
   | PArticle => [_scrape_article soup url]
   | PEcommerce => _scrape_products soup
   | PGeneric => _scrape_generic soup
   end).

(** [_handle_popups]: every button is tried, a failed click is
    ignored. *)
Definition common_popup_buttons : list string :=
  [ "button:has-text('Accept')"; "button:has-text('I Accept')";
    "button:has-text('Agree')"; "button:has-text('Close')";
    "button:has-text('No thanks')"; "[class*='close']"; "[class*='dismiss']" ].

Definition _handle_popups (p : page) : page :=
  fold_left
    (fun (p : page) (selector : string) =>
       match click p selector with
       | Some p' => p'
       | None => p
       end)
    common_popup_buttons p.

(** The inner loop of [_handle_pagination]: the first selector whose
    click succeeds. *)
Definition click_next (p : page) (cfg : config) : option page :=
  let next_selectors :=
    [ Some "a:has-text('Next')"; Some "a[class*='next']";
      Some "[class*='pagination'] a:last-child"; next_button cfg ] in
  for_return
    (fun selector =>
       match selector with
       | Some s => if PyStr.nonempty s then click p s else None
       | None => None
       end)
    next_selectors.

(** The loop [for page_num in range(2, max_pages + 1)], [n] iterations
    being left. *)
Fixpoint pagination_loop (n : nat) (p : page) (cfg : config)
  : list call * list record :=
  match n with
  | 0 => ([], [])
  | S n' =>
      match click_next p cfg with
      | None => ([], [])
      | Some p' =>
          let soup := content p' in
          let (calls, page_data) := _auto_detect_and_scrape soup (page_url p') in
          let (calls', all_data) := pagination_loop n' p' cfg in
          (Call_auto_detect_and_scrape soup :: calls ++ calls',
           page_data ++ all_data)
      end
  end.

(** [UniversalScraper._handle_pagination] *)
Definition _handle_pagination (p : page) (cfg : config)
  : list call * list record :=
  let max_pages := match max_pages cfg with Some m => m | None => 5%Z end in
  pagination_loop (Z.to_nat (max_pages - 1)) p cfg.

(** Lines 70-73 of [scrape_url]: the extractor the first document goes
    to. *)
Definition extract_document (soup : node) (url : string) (cfg : option config)
  : list call * result (list record) :=
  match cfg with
  | Some {| selectors := Some sels |} =>
      ([Call_scrape_with_selectors soup], _scrape_with_selectors soup sels)
  | _ =>
      let (calls, data) := _auto_detect_and_scrape soup url in
      (Call_auto_detect_and_scrape soup :: calls, Ok data)
  end.

(** The body of the [try] of [scrape_url]: the calls made, and the new
    [self.data] or the exception. *)
Definition scrape_url_try (self_data : list record) (url : string)
           (cfg : option config) : list call * result (list record) :=
  match goto url with
  | None => ([], Raise (BrowserError url))
  | Some p0 =>
      let p := _handle_popups p0 in
      let soup := content p in
      match extract_document soup url cfg with
      | (calls, Raise e) => (calls, Raise e)
      | (calls, Ok data) =>
          let (calls', data') :=
            match cfg with
            | Some c =>
                if pagination c
                then let (cs, more) := _handle_pagination p c in (cs, data ++ more)
                else ([], data)
            | None => ([], data)
            end in
          (calls ++ calls', Ok (self_data ++ data'))
      end
  end.

(** [UniversalScraper.scrape_url]: [except Exception] catches whatever
    the body raises, and [self.data] is returned in either case. *)
Definition scrape_url (self_data : list record) (url : string)
           (cfg : option config) : list call * list record :=
  match scrape_url_try self_data url cfg with
  | (calls, Ok data) => (calls, data)
  | (calls, Raise _) => (calls, self_data)
  end.

End Dispatcher.

(** ** The signals of the classifier, as propositions *)

(** Some [<table>] has more than 2 rows. *)
Definition table_signal (soup : node) : Prop :=
  exists table,
    In table (find_all (name_in ["table"]) soup)
    /\ 2 < List.length (find_all (name_in ["tr"]) table).

(** The lower-cased text of the page contains an indicator word. *)
Definition ecommerce_text_signal (soup : node) : Prop :=
  exists indicator,
    In indicator ecommerce_indicators
    /\ PyStr.contains indicator (PyStr.lower (get_text soup)) = true.

(** More than 3 elements have a class matching [product|item]. *)
Definition ecommerce_count_signal (soup : node) : Prop :=
  3 < List.length (find_all (class_matches (Re.alt ["product"; "item"])) soup).

Definition ecommerce_signal (soup : node) : Prop :=
  ecommerce_text_signal soup /\ ecommerce_count_signal soup.

(** One of the three class searches has more than 3 matches. *)
Definition cards_signal (soup : node) : Prop :=
  exists lit,
    In lit ["card"; "tile"; "grid-item"]
    /\ 3 < List.length (find_all (class_matches (Re.alt [lit])) soup).

(** Some [<ul>] or [<ol>] has more than 5 [<li>] below it, at any
    depth: what the code counts. *)
Definition list_signal (soup : node) : Prop :=
  exists lst,
    In lst (find_all (name_in ["ul"; "ol"]) soup)
    /\ 5 < List.length (find_all (name_in ["li"]) lst).

(** Some [<ul>] or [<ol>] has more than 5 direct [<li>] children: what
    the specification counts. *)
Definition direct_list_signal (soup : node) : Prop :=
  exists lst,
    In lst (find_all (name_in ["ul"; "ol"]) soup)
    /\ 5 < List.length (find_all_direct (name_in ["li"]) lst).

(** An [<article>] exists, or a class matches an article word. *)
Definition article_signal (soup : node) : Prop :=
  find (name_in ["article"]) soup <> None
  \/ exists indicator,
       In indicator article_indicators
       /\ find (class_matches (Re.alt [indicator])) soup <> None.

(** ** Small documents used as test inputs *)

Definition el (name : string) (cs : list node) : node := Elem name None [] cs.

Definition el_class (name : string) (cls : string) (cs : list node) : node :=
  Elem name (Some [cls]) [] cs.

Definition cell (s : string) : node := el "td" [Text s].

Definition row (cells : list string) : node := el "tr" (map cell cells).

(** A table of three rows inside a page that also shows card, list,
    product and article signals. *)
Definition mixed_page : node :=
  document
    [ el "body"
        [ el "article"
            [ el "table"
                [ row ["Name"; "Score"]; row ["Alice"; "10"]; row ["Bob"; "7"] ];
              el_class "div" "product-card" [Text "buy this item"];
              el_class "div" "product-card" [Text "price"];
              el_class "div" "product-card" [];
              el_class "div" "product-card" [];
              el "ul"
                [ el "li" []; el "li" []; el "li" [];
                  el "li" []; el "li" []; el "li" [] ] ] ] ].

(** Each check as a truth value. *)
Definition table_fires (soup : node) : bool :=
  existsb (fun table => 2 <? List.length (find_all (name_in ["tr"]) table))
          (find_all (name_in ["table"]) soup).

Definition ecommerce_fires (soup : node) : bool :=
  existsb (fun indicator => PyStr.contains indicator (PyStr.lower (get_text soup)))
          ecommerce_indicators
  && (3 <? List.length (find_all (class_matches (Re.alt ["product"; "item"])) soup)).

Definition cards_fires (soup : node) : bool :=
  existsb (fun lit => 3 <? List.length (find_all (class_matches (Re.alt [lit])) soup))
          ["card"; "tile"; "grid-item"].

Definition list_fires (soup : node) : bool :=
  existsb (fun lst => 5 <? List.length (find_all (name_in ["li"]) lst))
          (find_all (name_in ["ul"; "ol"]) soup).

Definition found (o : option node) : bool :=
  match o with Some _ => true | None => false end.

Definition article_fires (soup : node) : bool :=
  found (find (name_in ["article"]) soup)
  || existsb (fun indicator => found (find (class_matches (Re.alt [indicator])) soup))
             article_indicators.


Definition direct_list_fires (soup : node) : bool :=
  existsb (fun lst => 5 <? List.length (find_all_direct (name_in ["li"]) lst))
          (find_all (name_in ["ul"; "ol"]) soup).

(** Four elements of class [item] and the word "price" in the text. *)
Definition shop_page : node :=
  document
    [ el "body"
        [ el_class "div" "item" [Text "Price: 3"];
          el_class "div" "item" []; el_class "div" "item" [];
          el_class "span" "item" [] ] ].

(** The word "price" in the text, but only three matching classes. *)
Definition text_only_page : node :=
  document
    [ el "body"
        [ el_class "div" "item" [Text "Price: 3"];
          el_class "div" "item" []; el_class "div" "item" [] ] ].

(** Four matching classes, but no indicator word in the text. *)
Definition count_only_page : node :=
  document
    [ el "body"
        [ el_class "div" "item" [Text "Hello"];
          el_class "div" "item" []; el_class "div" "item" [];
          el_class "span" "item" [] ] ].

(** An outer list of two items, each holding a list of two items: six
    [<li>] below the outer [<ul>], two of them its direct children. *)
Definition nested_list_page : node :=
  document
    [ el "body"
        [ el "ul"
            [ el "li" [Text "a"; el "ul" [el "li" [Text "a1"]; el "li" [Text "a2"]]];
              el "li" [Text "b"; el "ul" [el "li" [Text "b1"]; el "li" [Text "b2"]]] ] ] ].

(** ** Counting the records of a table *)

(** The cells of a row. *)
Definition row_cells (r : node) : list node := find_all (name_in ["td"; "th"]) r.

(** The number of header cells of a table's first row. *)
Definition header_length (header_row : node) : nat :=
  List.length (find_all (name_in ["th"; "td"]) header_row).

(** The specification's count: the data rows with a non-empty cell
    among their first [n] cells. *)
Definition rows_with_nonempty_cell (n : nat) (data_rows : list node) : list node :=
  filter
    (fun r => existsb (fun c => PyStr.nonempty (get_text_strip c))
                      (firstn n (row_cells r)))
    data_rows.

Definition spec_table_record_count (table : node) : nat :=
  match find_all (name_in ["tr"]) table with
  | [] => 0
  | header_row :: data_rows =>
      List.length (rows_with_nonempty_cell (header_length header_row) data_rows)
  end.

(** The data rows with a cell, empty or not, among their first [n]
    cells. *)
Definition rows_with_cell (n : nat) (data_rows : list node) : list node :=
  filter (fun r => 0 <? List.length (firstn n (row_cells r))) data_rows.

(** A table whose only data row has two empty cells. *)
Definition blank_row_table : node :=
  el "table" [ row ["Name"; "Score"]; row [""; ""] ].

(** A list of exactly three items. *)
Definition three_item_page : node :=
  document
    [ el "body"
        [ el "ul" [ el "li" [Text "one"]; el "li" [Text "two"]; el "li" [Text "three"] ] ] ].

(** The direct [<li>] children of a list: its items. *)
Definition list_items (lst : node) : list node :=
  find_all_direct (name_in ["li"]) lst.

(** Two [card] boxes and two [tile] boxes: the patterns tie. *)
Definition tie_page : node :=
  document
    [ el "body"
        [ el_class "div" "tile" [Text "t1"];
          el_class "div" "card" [Text "c1"];
          el_class "div" "tile" [Text "t2"];
          el_class "div" "card" [Text "c2"];
          el_class "span" "tile" [Text "not a div"] ] ].

(** The [_product_index] values of a sequence of records. *)
Definition product_indices (rs : list record) : list (option pyval) :=
  map (assoc "_product_index") rs.

(** Four candidates: the first and the third have neither a name nor a
    price. *)
Definition noisy_shop_page : node :=
  document
    [ el "body"
        [ el_class "div" "item" [Text "banner"];
          el_class "div" "item" [el "h2" [Text "Lamp"]];
          el_class "div" "item" [el_class "span" "price" [Text "  "]];
          el_class "div" "item" [el_class "span" "price" [Text "9.99"]] ] ].

(** ** A selector engine and a browser for the test inputs *)

(** The engine restricted to type selectors: a selector is a tag name,
    made of lower-case letters and digits, and matches the elements of
    that name below the node. *)
Definition is_name_char (c : ascii) : bool :=
  let n := nat_of_ascii c in
  ((97 <=? n) && (n <=? 122)) || ((48 <=? n) && (n <=? 57)).

Fixpoint all_name_chars (s : string) : bool :=
  match s with
  | EmptyString => true
  | String c s' => is_name_char c && all_name_chars s'
  end.

Definition tag_selector_valid (s : string) : bool :=
  PyStr.nonempty s && all_name_chars s.

Definition tag_select_nodes (s : string) (n : node) : list node :=
  find_all (name_in [s]) n.

(** A browser showing one fixed document, on which no click
    succeeds. *)
Definition static_goto (doc : node) (url : string) : option node := Some doc.

Definition static_click (p : node) (selector : string) : option node := None.

Definition static_content (p : node) : node := p.

Definition static_url (p : node) : string := "".

(** A page with one heading. *)
Definition heading_page : node :=
  document [ el "html" [ el "body" [ el "h2" [Text "Hello"] ] ] ].

(** A configuration whose only field selector is malformed. *)
Definition bad_field_config : config :=
  {| selectors := Some [("title", "h2[")];
     pagination := false; max_pages := None; next_button := None |}.

(** The same field selector, with a container selector that matches
    nothing on [heading_page]. *)
Definition bad_field_no_container_config : config :=
  {| selectors := Some [("container", "article"); ("title", "h2[")];
     pagination := false; max_pages := None; next_button := None |}.

(** A well-formed configuration. *)
Definition good_config : config :=
  {| selectors := Some [("title", "h2")];
     pagination := false; max_pages := None; next_button := None |}.

(** ** The shape of records *)

Definition is_str (v : pyval) : bool :=
  match v with VStr _ => true | _ => false end.

Definition is_int (v : pyval) : bool :=
  match v with VInt _ => true | _ => false end.

(** The synthetic index fields. *)
Definition index_fields : list string :=
  ["_table_index"; "_list_index"; "_item_index"; "_card_index"; "_product_index"].

(** The specification's shape of a record: non-empty names, string
    values, integers for the index fields. *)
Definition spec_field_ok (kv : string * pyval) : bool :=
  PyStr.nonempty (fst kv)
  && (is_str (snd kv)
      || (existsb (String.eqb (fst kv)) index_fields && is_int (snd kv))).

Definition spec_record_ok (r : record) : bool := forallb spec_field_ok r.

(** The kinds of values the strategies store. *)
Inductive kind : Type :=
| KStr      (* a string *)
| KInt      (* an integer *)
| KStrList  (* a list of strings *)
| KLinks    (* a list of [{url, text}] dictionaries of strings *)
| KAny.     (* not constrained *)

Definition is_link_entry (v : pyval) : bool :=
  match v with
  | VDict [(k1, VStr _); (k2, VStr _)] => String.eqb k1 "url" && String.eqb k2 "text"
  | _ => false
  end.

Definition has_kind (k : kind) (v : pyval) : bool :=
  match k with
  | KStr => is_str v
  | KInt => is_int v
  | KStrList => match v with VList l => forallb is_str l | _ => false end
  | KLinks => match v with VList l => forallb is_link_entry l | _ => false end
  | KAny => true
  end.

(** A schema names the fields that are not plain strings. *)
Definition kind_of (schema : dict kind) (k : string) : kind :=
  match assoc k schema with
  | Some knd => knd
  | None => KStr
  end.

(** A field fits a schema; with [strict], its name is non-empty too. *)
Definition field_fits (strict : bool) (schema : dict kind) (k : string) (v : pyval)
  : bool :=
  (negb strict || PyStr.nonempty k) && has_kind (kind_of schema k) v.

Definition record_fits (strict : bool) (schema : dict kind) (r : record) : bool :=
  forallb (fun kv => field_fits strict schema (fst kv) (snd kv)) r.

Definition table_schema : dict kind := [("_table_index", KInt)].
Definition list_schema : dict kind := [("_list_index", KInt); ("_item_index", KInt)].
Definition card_schema : dict kind := [("_card_index", KInt); ("image", KAny)].
Definition product_schema : dict kind := [("_product_index", KInt); ("image", KAny)].
Definition article_schema : dict kind := [("word_count", KInt); ("images", KStrList)].
Definition generic_schema : dict kind := [("links", KLinks)].

(** A table whose second header cell is empty. *)
Definition blank_header_table : node :=
  el "table" [ row ["Name"; ""]; row ["Alice"; "10"]; row ["Bob"; "7"] ].

(** ** Saving the data: [save_to_csv] *)

(** [s.update(keys)] on a [set] of strings, held without repetition. *)
Definition set_add (k : string) (s : list string) : list string :=
  if existsb (String.eqb k) s then s else k :: s.

Definition set_update (keys : list string) (s : list string) : list string :=
  fold_left (fun acc k => set_add k acc) keys s.

(** [item.keys()] *)
Definition keys {A : Type} (d : dict A) : list string := map fst d.

(** The loop [for item in self.data: all_keys.update(item.keys())]. *)
Definition all_keys (data : list record) : list string :=
  fold_left (fun acc item => set_update (keys item) acc) data [].

(** [sorted(...)] on strings, which Python compares code point by code
    point: insertion into a sorted list. *)
Fixpoint insert_sorted (k : string) (l : list string) : list string :=
  match l with
  | [] => [k]
  | x :: rest => if String.leb k x then k :: l else x :: insert_sorted k rest
  end.

Definition sorted (l : list string) : list string :=
  fold_right insert_sorted [] l.

(** [DictWriter._dict_to_list]: a key outside [fieldnames] raises
    [ValueError], here [None]; a missing key gives the empty string. *)
Definition dict_to_list (fieldnames : list string) (rowdict : record)
  : option (list pyval) :=
  if forallb (fun k => existsb (String.eqb k) fieldnames) (keys rowdict)
  then Some (map (fun key => match assoc key rowdict with
                             | Some v => v
                             | None => VStr ""
                             end) fieldnames)
  else None.

(** [writer.writerows(data)]: the rows written so far, and whether a
    row raised. *)
Fixpoint writerows (fieldnames : list string) (data : list record)
  : list (list pyval) * bool :=
  match data with
  | [] => ([], false)
  | item :: rest =>
      match dict_to_list fieldnames item with
      | None => ([], true)
      | Some cells =>
          let (rows, raised) := writerows fieldnames rest in
          (cells :: rows, raised)
      end
  end.

(** What [save_to_csv] does: nothing on empty data, else the header
    and the rows handed to the [csv] writer, or a [ValueError] after
    some rows. *)
Inductive csv_outcome : Type :=
| NoDataToSave
| Written (header : list string) (rows : list (list pyval))
| ValueErrorAfter (header : list string) (rows : list (list pyval)).

(** [UniversalScraper.save_to_csv] *)
Definition save_to_csv (self_data : list record) : csv_outcome :=
  match self_data with
  | [] => NoDataToSave
  | _ =>
      let fieldnames := sorted (all_keys self_data) in
      match writerows fieldnames self_data with
      | (rows, false) => Written fieldnames rows
      | (rows, true) => ValueErrorAfter fieldnames rows
      end
  end.

(** ** The command line: [main] *)

(** [s.endswith(suffix)] *)
Fixpoint endswith (s suffix : string) : bool :=
  String.eqb s suffix
  || match s with
     | EmptyString => false
     | String _ s' => endswith s' suffix
     end.

Inductive out_format : Type := ToJson | ToCsv.

(** The last part of [main]: the method that saves and the file name
    it is given; [timestamp] is the formatted current time. *)
Definition output_plan (output : option string) (timestamp : string)
  : out_format * string :=
  match output with
  | Some out =>
      if PyStr.nonempty out then
        if endswith out ".json" then (ToJson, out)
        else if endswith out ".csv" then (ToCsv, out)
        else (ToJson, String.append out ".json")
      else
        (ToJson, String.append "scraped_data_" (String.append timestamp ".json"))
  | None =>
      (ToJson, String.append "scraped_data_" (String.append timestamp ".json"))
  end.

(** The empty dictionary [{}] as a configuration. *)
Definition empty_config : config :=
  {| selectors := None; pagination := false; max_pages := None;
     next_button := None |}.

(** [# Add pagination to config]: [loaded] is the configuration read
    from the [--config] file, [pages] the value of [--pages]. *)
Definition main_config (loaded : option config) (pages : option Z)
  : option config :=
  match pages with
  | Some n =>
      if negb (Z.eqb n 0) then
        let c := match loaded with Some c => c | None => empty_config end in
        Some {| selectors := selectors c; pagination := true;
                max_pages := Some n; next_button := next_button c |}
      else loaded
  | None => loaded
  end.

(** ** Measures used in the statements *)

Definition is_auto_detect_call (c : call) : bool :=
  match c with
  | Call_auto_detect_and_scrape _ => true
  | _ => false
  end.

(** The documents handed to [_auto_detect_and_scrape]. *)
Definition pages_auto_detected (calls : list call) : nat :=
  List.length (filter is_auto_detect_call calls).

(** An anchor that [_scrape_generic] keeps: non-empty [href], text of
    more than 2 characters. *)
Definition link_qualifies (link : node) : bool :=
  PyStr.nonempty (href_of link) && PyStr.nonempty (get_text_strip link)
  && (2 <? String.length (get_text_strip link)).

(** The (href, text) pairs of the anchors kept, in document order. *)
Definition qualifying_links (soup : node) : list (string * string) :=
  map (fun link => (href_of link, get_text_strip link))
      (filter link_qualifies
         (find_all
            (fun n => name_in ["a"] n
                      && match get_attr "href" n with Some _ => true | None => false end)
            soup)).

(** The number of records a list contributes. *)
Definition list_contribution (lst : node) : nat :=
  if List.length (list_items lst) <? 3 then 0 else List.length (list_items lst).

(** A list of six direct items. *)
Definition six_item_page : node :=
  document
    [ el "body"
        [ el "ol"
            [ el "li" [Text "1"]; el "li" [Text "2"]; el "li" [Text "3"];
              el "li" [Text "4"]; el "li" [Text "5"]; el "li" [Text "6"] ] ] ].

(** Strictly increasing order on strings, code point by code point. *)
Definition str_lt (a b : string) : Prop := String.ltb a b = true.

(** A browser on which no page loads. *)
Definition failing_goto (url : string) : option node := None.
(** ** Properties of the classifier *)

Lemma for_return_if {A B : Type} (c : A -> bool) (v : B) (l : list A) :
  for_return (fun x => if c x then Some v else None) l
  = if existsb c l then Some v else None.
Proof.
  induction l as [|x l IH]; simpl; [reflexivity|].
  destruct (c x); simpl; [reflexivity | exact IH].
Qed.

Lemma check_tables_fires soup :
  check_tables soup = if table_fires soup then Some PTable else None.
Proof.
  unfold check_tables, table_fires.
  rewrite for_return_if.
  destruct (find_all (name_in ["table"]) soup); reflexivity.
Qed.

Lemma check_ecommerce_fires soup :
  check_ecommerce soup = if ecommerce_fires soup then Some PEcommerce else None.
Proof.
  unfold check_ecommerce, ecommerce_fires.
  destruct (existsb _ ecommerce_indicators); simpl; [|reflexivity].
  destruct (3 <? _); reflexivity.
Qed.

Lemma check_cards_fires soup :
  check_cards soup = if cards_fires soup then Some PCards else None.
Proof.
  unfold check_cards, cards_fires. rewrite for_return_if. reflexivity.
Qed.

Lemma check_lists_fires soup :
  check_lists soup = if list_fires soup then Some PList else None.
Proof.
  unfold check_lists, list_fires. apply for_return_if.
Qed.

Lemma check_article_fires soup :
  check_article soup = if article_fires soup then Some PArticle else None.
Proof. reflexivity. Qed.

Lemma found_true (o : option node) : found o = true <-> o <> None.
Proof. destruct o; simpl; split; congruence. Qed.

Lemma table_fires_signal soup : table_fires soup = true <-> table_signal soup.
Proof.
  unfold table_fires, table_signal. rewrite existsb_exists.
  split; intros [t [Hin H]]; exists t; split; auto;
    [apply Nat.ltb_lt in H | apply Nat.ltb_lt]; exact H.
Qed.

Lemma ecommerce_fires_signal soup :
  ecommerce_fires soup = true <-> ecommerce_signal soup.
Proof.
  unfold ecommerce_fires, ecommerce_signal, ecommerce_text_signal,
    ecommerce_count_signal.
  rewrite andb_true_iff, existsb_exists, Nat.ltb_lt. reflexivity.
Qed.

Lemma cards_fires_signal soup : cards_fires soup = true <-> cards_signal soup.
Proof.
  unfold cards_fires, cards_signal. rewrite existsb_exists.
  split; intros [t [Hin H]]; exists t; split; auto;
    [apply Nat.ltb_lt in H | apply Nat.ltb_lt]; exact H.
Qed.

Lemma list_fires_signal soup : list_fires soup = true <-> list_signal soup.
Proof.
  unfold list_fires, list_signal. rewrite existsb_exists.
  split; intros [t [Hin H]]; exists t; split; auto;
    [apply Nat.ltb_lt in H | apply Nat.ltb_lt]; exact H.
Qed.

Lemma article_fires_signal soup : article_fires soup = true <-> article_signal soup.
Proof.
  unfold article_fires, article_signal.
  rewrite orb_true_iff, existsb_exists, found_true.
  split; (intros [H | [i [Hin H]]]; [left; exact H | right; exists i; split; auto]);
    apply found_true; exact H.
Qed.

(** The classifier as a cascade over the five truth values. *)
Lemma detect_cascade soup url :
  _detect_page_type soup url =
  if table_fires soup then PTable
  else if ecommerce_fires soup then PEcommerce
  else if cards_fires soup then PCards
  else if list_fires soup then PList
  else if article_fires soup then PArticle
  else PGeneric.
Proof.
  unfold _detect_page_type.
  rewrite check_tables_fires, check_ecommerce_fires, check_cards_fires,
    check_lists_fires, check_article_fires.
  destruct (table_fires soup), (ecommerce_fires soup), (cards_fires soup),
    (list_fires soup), (article_fires soup); reflexivity.
Qed.

(** C1: the classifier depends on the document only, and returns the
    label of the first check that fires in the order Table, Products,
    Cards, List, Article, with Generic when none fires; so a document
    with a [<table>] of more than 2 rows is a Table whatever other
    signals it shows. *)
Theorem detect_page_type_priority (soup : node) (url : string) :
  (forall url', _detect_page_type soup url' = _detect_page_type soup url)
  /\ (_detect_page_type soup url = PTable <-> table_signal soup)
  /\ (_detect_page_type soup url = PEcommerce
      <-> ~ table_signal soup /\ ecommerce_signal soup)
  /\ (_detect_page_type soup url = PCards
      <-> ~ table_signal soup /\ ~ ecommerce_signal soup /\ cards_signal soup)
  /\ (_detect_page_type soup url = PList
      <-> ~ table_signal soup /\ ~ ecommerce_signal soup /\ ~ cards_signal soup
          /\ list_signal soup)
  /\ (_detect_page_type soup url = PArticle
      <-> ~ table_signal soup /\ ~ ecommerce_signal soup /\ ~ cards_signal soup
          /\ ~ list_signal soup /\ article_signal soup)
  /\ (_detect_page_type soup url = PGeneric
      <-> ~ table_signal soup /\ ~ ecommerce_signal soup /\ ~ cards_signal soup
          /\ ~ list_signal soup /\ ~ article_signal soup).
Proof.
  split; [intros url'; rewrite !detect_cascade; reflexivity|].
  rewrite detect_cascade.
  rewrite <- table_fires_signal, <- ecommerce_fires_signal, <- cards_fires_signal,
    <- list_fires_signal, <- article_fires_signal.
  destruct (table_fires soup), (ecommerce_fires soup), (cards_fires soup),
    (list_fires soup), (article_fires soup);
    repeat split; intros; try discriminate; try reflexivity;
    repeat match goal with H : _ /\ _ |- _ => destruct H end;
    try congruence; try (exfalso; auto; fail).
Qed.

(** C1 at [mixed_page]: a table of three rows wins over the product,
    card, list and article signals of the same page. *)
Lemma detect_page_type_priority_witness :
  _detect_page_type mixed_page "http://example.com" = PTable
  /\ ecommerce_signal mixed_page /\ cards_signal mixed_page
  /\ list_signal mixed_page /\ article_signal mixed_page.
Proof.
  split.
  - apply (proj2 (proj1 (proj2
      (detect_page_type_priority mixed_page "http://example.com")))).
    apply table_fires_signal. vm_compute. reflexivity.
  - repeat split;
      [ apply (proj1 (proj1 (ecommerce_fires_signal mixed_page) eq_refl))
      | apply (proj2 (proj1 (ecommerce_fires_signal mixed_page) eq_refl))
      | apply cards_fires_signal
      | apply list_fires_signal
      | apply article_fires_signal ]; vm_compute; reflexivity.
Defined.

Lemma direct_list_fires_signal soup :
  direct_list_fires soup = true <-> direct_list_signal soup.
Proof.
  unfold direct_list_fires, direct_list_signal. rewrite existsb_exists.
  split; intros [t [Hin H]]; exists t; split; auto;
    [apply Nat.ltb_lt in H | apply Nat.ltb_lt]; exact H.
Qed.

(** C2: a page is classified Products only when its lower-cased text
    contains an indicator word and, at the same time, more than 3
    elements have a class matching [product|item]; when either
    condition fails the label is never Products. *)
Theorem ecommerce_needs_text_and_count (soup : node) (url : string) :
  (_detect_page_type soup url = PEcommerce ->
   ecommerce_text_signal soup /\ ecommerce_count_signal soup)
  /\ (~ ecommerce_text_signal soup -> _detect_page_type soup url <> PEcommerce)
  /\ (~ ecommerce_count_signal soup -> _detect_page_type soup url <> PEcommerce)
  /\ (~ table_signal soup ->
      ecommerce_text_signal soup -> ecommerce_count_signal soup ->
      _detect_page_type soup url = PEcommerce).
Proof.
  assert (Hboth : _detect_page_type soup url = PEcommerce -> ecommerce_signal soup).
  { rewrite detect_cascade. intros H. apply ecommerce_fires_signal.
    destruct (table_fires soup); [discriminate|].
    destruct (ecommerce_fires soup); [reflexivity|].
    destruct (cards_fires soup); [discriminate|].
    destruct (list_fires soup); [discriminate|].
    destruct (article_fires soup); discriminate. }
  repeat split.
  - apply Hboth; assumption.
  - apply Hboth; assumption.
  - intros Hno H. apply Hno. apply (Hboth H).
  - intros Hno H. apply Hno. apply (Hboth H).
  - intros Ht Htxt Hcnt. rewrite detect_cascade.
    destruct (table_fires soup) eqn:E.
    + exfalso. apply Ht. apply table_fires_signal. exact E.
    + assert (Hf : ecommerce_fires soup = true)
        by (apply ecommerce_fires_signal; split; assumption).
      rewrite Hf. reflexivity.
Qed.

(** C2 at three pages: [shop_page] is classified Products and shows
    both conditions; [text_only_page] and [count_only_page] show one
    condition each and are not. *)
Lemma ecommerce_needs_text_and_count_witness :
  (ecommerce_text_signal shop_page /\ ecommerce_count_signal shop_page)
  /\ _detect_page_type text_only_page "" <> PEcommerce
  /\ _detect_page_type count_only_page "" <> PEcommerce.
Proof.
  split; [|split].
  - apply (proj1 (ecommerce_needs_text_and_count shop_page "")).
    vm_compute. reflexivity.
  - apply (proj1 (proj2 (proj2 (ecommerce_needs_text_and_count text_only_page "")))).
    unfold ecommerce_count_signal. vm_compute. lia.
  - apply (proj1 (proj2 (ecommerce_needs_text_and_count count_only_page ""))).
    intros H. unfold ecommerce_text_signal in H. destruct H as [i [Hin Hc]].
    revert Hc. simpl in Hin.
    repeat (destruct Hin as [<- | Hin]; [vm_compute; discriminate|]).
    destruct Hin.
Defined.

(** C4 at [nested_list_page]: the only outer list has two direct [<li>]
    children and no list of the page has more than 5, yet the
    classifier answers List, because it counts the six [<li>] found at
    any depth below the outer [<ul>]. *)
Theorem list_check_counts_nested_items :
  _detect_page_type nested_list_page "" = PList
  /\ ~ direct_list_signal nested_list_page
  /\ list_signal nested_list_page
  /\ _scrape_lists nested_list_page = [].
Proof.
  split; [vm_compute; reflexivity|].
  split; [|split].
  - intros H. apply direct_list_fires_signal in H. vm_compute in H. discriminate.
  - apply list_fires_signal. vm_compute. reflexivity.
  - vm_compute. reflexivity.
Qed.

(** ** Properties of table extraction *)

Lemma dict_set_nonempty {A : Type} (k : string) (v : A) (d : dict A) :
  dict_nonempty (dict_set k v d) = true.
Proof.
  destruct d as [|[k' v'] d]; simpl; [reflexivity|].
  destruct (String.eqb k k'); reflexivity.
Qed.

Lemma table_headers_length (header_row : node) :
  List.length (table_headers header_row) = header_length header_row.
Proof.
  unfold table_headers, header_length.
  destruct (negb _ || forallb _ _).
  - rewrite length_map, length_seq. reflexivity.
  - rewrite length_map. reflexivity.
Qed.

(** The loop over the cells keeps a non-empty [row_data] non-empty. *)
Lemma row_fold_keeps_nonempty (headers : list string) (l : list (nat * node))
      (acc : record) :
  dict_nonempty acc = true ->
  dict_nonempty (fold_left (table_cell headers) l acc) = true.
Proof.
  revert acc. induction l as [|[idx c] l IH]; intros acc Hacc.
  - exact Hacc.
  - cbn [fold_left]. apply IH. unfold table_cell.
    destruct (idx <? List.length headers); [apply dict_set_nonempty | exact Hacc].
Qed.

(** With no header, the loop over the cells stores nothing. *)
Lemma row_fold_no_headers (l : list (nat * node)) (acc : record) :
  fold_left (table_cell []) l acc = acc.
Proof.
  revert acc. induction l as [|[idx c] l IH]; intros acc; [reflexivity|].
  cbn [fold_left]. rewrite IH. reflexivity.
Qed.

(** [row_data] is non-empty exactly when the row has a cell and the
    table a header, whatever the cells hold. *)
Lemma table_row_data_nonempty (headers : list string) (cells : list node) :
  dict_nonempty (table_row_data headers cells)
  = (0 <? List.length (firstn (List.length headers) cells)).
Proof.
  unfold table_row_data, enumerate.
  destruct cells as [|c cells].
  - rewrite firstn_nil. reflexivity.
  - destruct headers as [|h headers].
    + rewrite row_fold_no_headers. reflexivity.
    + cbn [List.length seq combine fold_left firstn Nat.ltb Nat.leb].
      apply row_fold_keeps_nonempty. unfold table_cell.
      cbn [List.length Nat.ltb Nat.leb]. apply dict_set_nonempty.
Qed.

(** A data row yields one record when it has a cell among the first
    [n] columns, none otherwise. *)
Lemma table_row_length (headers : list string) (table_idx : nat) (r : node) :
  List.length (table_row headers table_idx r)
  = if 0 <? List.length (firstn (List.length headers) (row_cells r)) then 1 else 0.
Proof.
  unfold table_row. fold (row_cells r).
  rewrite table_row_data_nonempty.
  destruct (row_cells r) as [|c cs]; simpl.
  - rewrite firstn_nil. reflexivity.
  - destruct (0 <? _); reflexivity.
Qed.

Lemma flat_map_length_filter {A B : Type} (f : A -> list B) (p : A -> bool)
      (l : list A) :
  (forall x, List.length (f x) = if p x then 1 else 0) ->
  List.length (flat_map f l) = List.length (filter p l).
Proof.
  intros H. induction l as [|x l IH]; simpl; [reflexivity|].
  rewrite length_app, H, IH. destruct (p x); reflexivity.
Qed.

(** C3, as the code has it: a table with a header row of [N] cells
    yields exactly one record per data row that has at least one cell
    among its first [N] cells, whether or not any of these cells holds
    text; a data row yields no record exactly when it has no cell there
    (it has no cell at all, or the header row has none). *)
Theorem table_record_count (table_idx : nat) (table header_row : node)
        (data_rows : list node) :
  find_all (name_in ["tr"]) table = header_row :: data_rows ->
  List.length (scrape_table table_idx table)
  = List.length (rows_with_cell (header_length header_row) data_rows)
  /\ (forall r,
        table_row (table_headers header_row) table_idx r = []
        <-> firstn (header_length header_row) (row_cells r) = []).
Proof.
  intros Hrows. split.
  - unfold scrape_table. rewrite Hrows.
    destruct data_rows as [|r1 rest]; [reflexivity|].
    simpl (List.length (header_row :: r1 :: rest) <? 2).
    unfold rows_with_cell.
    apply flat_map_length_filter. intros r.
    rewrite table_row_length, table_headers_length. reflexivity.
  - intros r.
    pose proof (table_row_length (table_headers header_row) table_idx r) as H.
    rewrite table_headers_length in H.
    destruct (firstn (header_length header_row) (row_cells r)) as [|c cs];
      simpl in H.
    + split; [reflexivity|]. intros _.
      destruct (table_row _ _ _); [reflexivity | discriminate].
    + split; [|discriminate]. intros E. rewrite E in H. discriminate.
Qed.

(** C3 at [blank_row_table]: its data row of two empty cells is
    counted and yields a record. *)
Lemma table_record_count_witness :
  List.length (scrape_table 0 blank_row_table) = 1
  /\ scrape_table 0 blank_row_table
     = [[("Name", VStr ""); ("Score", VStr ""); ("_table_index", VInt 0)]].
Proof.
  split.
  - apply (proj1 (table_record_count 0 blank_row_table
                    (row ["Name"; "Score"]) [row [""; ""]] eq_refl)).
  - vm_compute. reflexivity.
Defined.

(** C3 as stated fails at [blank_row_table]: no data row has a
    non-empty cell, yet one record is produced. *)
Lemma table_blank_row_counterexample :
  List.length (scrape_table 0 blank_row_table)
  <> spec_table_record_count blank_row_table
  /\ spec_table_record_count blank_row_table = 0
  /\ _scrape_tables (document [blank_row_table])
     = [[("Name", VStr ""); ("Score", VStr ""); ("_table_index", VInt 0)]].
Proof.
  split; [vm_compute; discriminate|].
  split; vm_compute; reflexivity.
Qed.

(** ** Properties of list extraction *)

Lemma in_combine_seq {A : Type} (l : list A) (s i : nat) (x : A) :
  In (i, x) (combine (seq s (List.length l)) l) ->
  s <= i /\ nth_error l (i - s) = Some x.
Proof.
  revert s. induction l as [|y l IH]; intros s H; simpl in H; [destruct H|].
  destruct H as [H | H].
  - inversion H; subst. rewrite Nat.sub_diag. split; [lia | reflexivity].
  - apply IH in H. destruct H as [Hle Hn]. split; [lia|].
    replace (i - s) with (S (i - S s)) by lia. exact Hn.
Qed.

Lemma in_enumerate {A : Type} (l : list A) (i : nat) (x : A) :
  In (i, x) (enumerate l) -> nth_error l i = Some x.
Proof.
  intros H. apply in_combine_seq in H. rewrite Nat.sub_0_r in H. apply H.
Qed.

Lemma assoc_dict_set_other {A : Type} (k k' : string) (v : A) (d : dict A) :
  String.eqb k k' = false -> assoc k (dict_set k' v d) = assoc k d.
Proof.
  intros Hk. induction d as [|[k0 v0] d IH]; simpl.
  - rewrite Hk. reflexivity.
  - destruct (String.eqb k' k0) eqn:E; simpl.
    + apply String.eqb_eq in E. subst k0. rewrite Hk. reflexivity.
    + destruct (String.eqb k k0); [reflexivity | exact IH].
Qed.

Lemma assoc_dict_set_same {A : Type} (k : string) (v : A) (d : dict A) :
  assoc k (dict_set k v d) = Some v.
Proof.
  induction d as [|[k0 v0] d IH]; simpl.
  - rewrite String.eqb_refl. reflexivity.
  - destruct (String.eqb k k0) eqn:E; simpl; rewrite E; [reflexivity | exact IH].
Qed.

Lemma assoc_set_link (k : string) (container : node) (d : record) :
  String.eqb k "link" = false -> assoc k (set_link container d) = assoc k d.
Proof.
  intros Hk. unfold set_link.
  destruct (find _ container); [|reflexivity].
  destruct (truthy _); [|reflexivity].
  apply assoc_dict_set_other. exact Hk.
Qed.

(** The fixed fields of the record of a list item. *)
Lemma list_item_fields (list_idx item_idx : nat) (item : node) :
  assoc "text" (list_item list_idx item_idx item) = Some (VStr (get_text_strip item))
  /\ assoc "_list_index" (list_item list_idx item_idx item) = Some (vint list_idx)
  /\ assoc "_item_index" (list_item list_idx item_idx item) = Some (vint item_idx).
Proof.
  unfold list_item. rewrite !assoc_set_link by reflexivity.
  repeat split.
Qed.

Lemma name_in_tag (nm : string) (n : node) :
  name_in [nm] n = true -> tag_name n = Some nm.
Proof.
  destruct n as [s | nm' c a cs]; simpl; [discriminate|].
  rewrite orb_false_r. intros H. apply String.eqb_eq in H. congruence.
Qed.

(** C5, as the code has it: every record of list extraction comes from
    a [<ul>]/[<ol>] with at least 3 direct [<li>] children (lists of
    fewer than 3 are skipped, a list of exactly 3 is not), and from an
    [<li>] that is a direct child of that very list: [_list_index] and
    [_item_index] are the positions of the list in the document and of
    the item among the list's direct [<li>] children. *)
Theorem list_records_from_direct_items (soup : node) (r : record) :
  In r (_scrape_lists soup) ->
  exists list_idx lst item_idx item,
    nth_error (find_all (name_in ["ul"; "ol"]) soup) list_idx = Some lst
    /\ nth_error (list_items lst) item_idx = Some item
    /\ In item (children lst)
    /\ tag_name item = Some "li"
    /\ 3 <= List.length (list_items lst)
    /\ r = list_item list_idx item_idx item
    /\ assoc "text" r = Some (VStr (get_text_strip item))
    /\ assoc "_list_index" r = Some (vint list_idx)
    /\ assoc "_item_index" r = Some (vint item_idx).
Proof.
  unfold _scrape_lists. intros H.
  apply in_flat_map in H. destruct H as [[list_idx lst] [Hl Hr]].
  apply in_enumerate in Hl. simpl in Hr.
  unfold scrape_list in Hr. fold (list_items lst) in Hr.
  destruct (List.length (list_items lst) <? 3) eqn:Hlen; [destruct Hr|].
  apply Nat.ltb_ge in Hlen.
  apply in_map_iff in Hr. destruct Hr as [[item_idx item] [Hr Hi]].
  apply in_enumerate in Hi. simpl in Hr.
  exists list_idx, lst, item_idx, item.
  assert (Hin : In item (list_items lst)) by (eapply nth_error_In; exact Hi).
  unfold list_items, find_all_direct in Hin. apply filter_In in Hin.
  destruct Hin as [Hchild Hname].
  destruct (list_item_fields list_idx item_idx item) as [Ht [Hli Hii]].
  subst r. repeat split; auto.
  apply name_in_tag. exact Hname.
Qed.

(** C5 at [three_item_page]: the second record comes from the second
    direct item of the only list. *)
Lemma list_records_from_direct_items_witness :
  exists list_idx lst item_idx item,
    nth_error (find_all (name_in ["ul"; "ol"]) three_item_page) list_idx = Some lst
    /\ nth_error (list_items lst) item_idx = Some item
    /\ In item (children lst)
    /\ tag_name item = Some "li"
    /\ 3 <= List.length (list_items lst)
    /\ [("text", VStr "two"); ("_list_index", VInt 0); ("_item_index", VInt 1)]
       = list_item list_idx item_idx item
    /\ assoc "text" [("text", VStr "two"); ("_list_index", VInt 0); ("_item_index", VInt 1)]
       = Some (VStr (get_text_strip item))
    /\ assoc "_list_index" [("text", VStr "two"); ("_list_index", VInt 0); ("_item_index", VInt 1)]
       = Some (vint list_idx)
    /\ assoc "_item_index" [("text", VStr "two"); ("_list_index", VInt 0); ("_item_index", VInt 1)]
       = Some (vint item_idx).
Proof.
  apply (list_records_from_direct_items three_item_page).
  vm_compute. right. left. reflexivity.
Defined.

(** C5 as stated fails at [three_item_page]: its list has 3 direct
    [<li>] children, which is "3 or fewer", and all three items are
    emitted. *)
Lemma list_of_three_counterexample :
  (exists lst,
      find_all (name_in ["ul"; "ol"]) three_item_page = [lst]
      /\ List.length (list_items lst) = 3)
  /\ _scrape_lists three_item_page
     = [ [("text", VStr "one"); ("_list_index", VInt 0); ("_item_index", VInt 0)];
         [("text", VStr "two"); ("_list_index", VInt 0); ("_item_index", VInt 1)];
         [("text", VStr "three"); ("_list_index", VInt 0); ("_item_index", VInt 2)] ].
Proof.
  split.
  - eexists. split; [vm_compute; reflexivity | vm_compute; reflexivity].
  - vm_compute. reflexivity.
Qed.

(** ** Properties of cards extraction *)

(** What the loop over the selectors leaves in [cards]: the set it
    started with when no selector beats it, else the set of the first
    selector reaching the highest count. *)
Lemma better_cards_fold (soup : node) (sels : list Re.pattern) (cur : list node) :
  (fold_left (better_cards soup) sels cur = cur
   /\ forall q, In q sels -> List.length (find_divs q soup) <= List.length cur)
  \/ exists pre p post,
       sels = pre ++ p :: post
       /\ fold_left (better_cards soup) sels cur = find_divs p soup
       /\ List.length cur < List.length (find_divs p soup)
       /\ (forall q, In q pre ->
                     List.length (find_divs q soup) < List.length (find_divs p soup))
       /\ (forall q, In q post ->
                     List.length (find_divs q soup) <= List.length (find_divs p soup)).
Proof.
  revert cur. induction sels as [|s rest IH]; intros cur.
  - left. split; [reflexivity | intros q []].
  - cbn [fold_left].
    destruct (List.length cur <? List.length (find_divs s soup)) eqn:E.
    + assert (Hb : better_cards soup cur s = find_divs s soup)
        by (unfold better_cards; rewrite E; reflexivity).
      rewrite Hb. apply Nat.ltb_lt in E. right.
      destruct (IH (find_divs s soup))
        as [[Hres Hall] | (pre & p & post & Hs & Hres & Hlt & Hpre & Hpost)].
      * exists [], s, rest.
        split; [reflexivity|]. split; [exact Hres|]. split; [exact E|].
        split; [intros q [] | exact Hall].
      * exists (s :: pre), p, post. subst rest.
        split; [reflexivity|]. split; [exact Hres|]. split; [lia|].
        split; [|exact Hpost].
        intros q [<- | Hq]; [exact Hlt | apply Hpre; exact Hq].
    + assert (Hb : better_cards soup cur s = cur)
        by (unfold better_cards; rewrite E; reflexivity).
      rewrite Hb. apply Nat.ltb_ge in E.
      destruct (IH cur)
        as [[Hres Hall] | (pre & p & post & Hs & Hres & Hlt & Hpre & Hpost)].
      * left. split; [exact Hres|].
        intros q [<- | Hq]; [exact E | apply Hall; exact Hq].
      * right. exists (s :: pre), p, post. subst rest.
        split; [reflexivity|]. split; [exact Hres|]. split; [exact Hlt|].
        split; [|exact Hpost].
        intros q [<- | Hq]; [lia | apply Hpre; exact Hq].
Qed.

Lemma find_divs_are_divs (selector : Re.pattern) (soup card : node) :
  In card (find_divs selector soup) -> tag_name card = Some "div".
Proof.
  unfold find_divs, find_all. intros H. apply filter_In in H.
  destruct H as [_ H]. apply andb_true_iff in H. destruct H as [H _].
  apply name_in_tag. exact H.
Qed.

(** C9: the candidates of cards extraction are [<div>] elements only;
    they are the matches of exactly one of the patterns [card], [tile],
    [grid-item], [box], namely the first one in that order to reach the
    highest count (every earlier pattern has strictly fewer matches,
    every later one no more), so a tie goes to the earlier pattern and
    no two sets are merged; one record is produced per candidate. *)
Theorem cards_first_best_selector (soup : node) :
  (forall card, In card (select_cards soup) -> tag_name card = Some "div")
  /\ (exists pre selector post,
        card_selectors = pre ++ selector :: post
        /\ select_cards soup = find_divs selector soup
        /\ (forall q, In q pre ->
              List.length (find_divs q soup) < List.length (find_divs selector soup))
        /\ (forall q, In q post ->
              List.length (find_divs q soup) <= List.length (find_divs selector soup)))
  /\ List.length (_scrape_cards soup) = List.length (select_cards soup).
Proof.
  assert (Hsel : exists pre selector post,
        card_selectors = pre ++ selector :: post
        /\ select_cards soup = find_divs selector soup
        /\ (forall q, In q pre ->
              List.length (find_divs q soup) < List.length (find_divs selector soup))
        /\ (forall q, In q post ->
              List.length (find_divs q soup) <= List.length (find_divs selector soup))).
  { unfold select_cards.
    destruct (better_cards_fold soup card_selectors [])
      as [[Hres Hall] | (pre & p & post & Hs & Hres & Hlt & Hpre & Hpost)].
    - assert (Hnil : forall q, In q card_selectors -> find_divs q soup = []).
      { intros q Hq. specialize (Hall q Hq). simpl in Hall.
        destruct (find_divs q soup); [reflexivity | simpl in Hall; lia]. }
      exists [], (Re.alt ["card"]), (tl card_selectors).
      split; [reflexivity|]. split.
      { rewrite Hres. symmetry. apply Hnil. left. reflexivity. }
      split; [intros q []|].
      intros q Hq. rewrite (Hnil q); [simpl; lia|]. right. exact Hq.
    - exists pre, p, post.
      split; [exact Hs|]. split; [exact Hres|]. split; [exact Hpre | exact Hpost]. }
  split; [|split; [exact Hsel|]].
  - destruct Hsel as (pre & p & post & _ & Hres & _). rewrite Hres.
    intros card. apply find_divs_are_divs.
  - unfold _scrape_cards, enumerate.
    rewrite length_map, length_combine, length_seq. apply Nat.min_id.
Qed.

(** C9 at [tie_page]: [card] and [tile] match two [<div>] each; the
    [card] set is extracted, and the [<span>] of class [tile] is no
    candidate. *)
Example cards_tie_goes_to_first :
  select_cards tie_page = find_divs (Re.alt ["card"]) tie_page
  /\ List.length (find_divs (Re.alt ["tile"]) tie_page) = 2
  /\ _scrape_cards tie_page
     = [ [("_card_index", VInt 0); ("text", VStr "c1")];
         [("_card_index", VInt 1); ("text", VStr "c2")] ].
Proof. vm_compute. repeat split. Qed.

(** ** Properties of products extraction *)

Lemma assoc_set_text (k k' : string) (e : option node) (d : record) :
  String.eqb k k' = false -> assoc k (set_text k' e d) = assoc k d.
Proof.
  intros Hk. destruct e; simpl; [apply assoc_dict_set_other; exact Hk | reflexivity].
Qed.

Lemma assoc_set_image (k : string) (container : node) (d : record) :
  String.eqb k "image" = false -> assoc k (set_image container d) = assoc k d.
Proof.
  intros Hk. unfold set_image.
  destruct (find _ container); [|reflexivity].
  apply assoc_dict_set_other. exact Hk.
Qed.

(** The index of a candidate is stored when its record is created and
    no later field overwrites it. *)
Lemma product_data_index (prod_idx : nat) (product : node) :
  assoc "_product_index" (product_data prod_idx product) = Some (vint prod_idx).
Proof.
  unfold product_data.
  rewrite assoc_set_image, assoc_set_link, !assoc_set_text by reflexivity.
  reflexivity.
Qed.

(** The indices kept from the candidates numbered from [s] on are
    strictly increasing. *)
Lemma kept_indices_increasing (l : list node) (s : nat) :
  exists idxs,
    product_indices
      (filter product_kept
         (map (fun ip => product_data (fst ip) (snd ip))
              (combine (seq s (List.length l)) l)))
    = map (fun i => Some (vint i)) idxs
    /\ StronglySorted lt idxs
    /\ Forall (fun i => s <= i < s + List.length l) idxs.
Proof.
  revert s. induction l as [|p l IH]; intros s.
  - exists []. repeat split; constructor.
  - destruct (IH (S s)) as (idxs & Hmap & Hsorted & Hrange).
    cbn [List.length seq combine map filter fst snd].
    assert (Hrange' : Forall (fun i => s <= i < s + S (List.length l)) idxs).
    { eapply Forall_impl; [|exact Hrange]. simpl. intros i Hi. lia. }
    destruct (product_kept (product_data s p)).
    + exists (s :: idxs). split; [|split].
      * unfold product_indices in *. cbn [map].
        rewrite product_data_index, Hmap. reflexivity.
      * constructor; [exact Hsorted|].
        eapply Forall_impl; [|exact Hrange]. simpl. intros i Hi. lia.
      * constructor; [lia | exact Hrange'].
    + exists idxs. split; [exact Hmap | split; [exact Hsorted | exact Hrange']].
Qed.

(** C10: every record of products extraction carries, as
    [_product_index], the 0-based position of its candidate among all
    elements whose class matches [product|item], given before the
    candidates with neither a non-empty name nor a non-empty price are
    dropped; the indices of the output are therefore strictly
    increasing, and they may skip values and start after 0, as on
    [noisy_shop_page] where they are 1 and 3. *)
Theorem product_index_is_candidate_position (soup : node) :
  (forall r, In r (_scrape_products soup) ->
     exists prod_idx product,
       nth_error (product_candidates soup) prod_idx = Some product
       /\ r = product_data prod_idx product
       /\ assoc "_product_index" r = Some (vint prod_idx)
       /\ (get_truthy "name" r = true \/ get_truthy "price" r = true))
  /\ (forall prod_idx product,
        nth_error (product_candidates soup) prod_idx = Some product ->
        get_truthy "name" (product_data prod_idx product) = false ->
        get_truthy "price" (product_data prod_idx product) = false ->
        ~ In (product_data prod_idx product) (_scrape_products soup))
  /\ (exists idxs,
        product_indices (_scrape_products soup) = map (fun i => Some (vint i)) idxs
        /\ StronglySorted lt idxs
        /\ Forall (fun i => i < List.length (product_candidates soup)) idxs)
  /\ product_indices (_scrape_products noisy_shop_page)
     = [Some (VInt 1); Some (VInt 3)].
Proof.
  split; [|split; [|split]].
  - intros r Hr. unfold _scrape_products in Hr.
    apply filter_In in Hr. destruct Hr as [Hr Hkept].
    apply in_map_iff in Hr. destruct Hr as [[i p] [Hr Hin]].
    apply in_enumerate in Hin. simpl in Hr. subst r.
    exists i, p. split; [exact Hin|]. split; [reflexivity|].
    split; [apply product_data_index|].
    unfold product_kept in Hkept. apply orb_true_iff in Hkept. exact Hkept.
  - intros i p _ Hn Hp Hin. unfold _scrape_products in Hin.
    apply filter_In in Hin. destruct Hin as [_ Hkept].
    unfold product_kept in Hkept. rewrite Hn, Hp in Hkept. discriminate.
  - unfold _scrape_products, enumerate.
    destruct (kept_indices_increasing (product_candidates soup) 0)
      as (idxs & Hmap & Hsorted & Hrange).
    exists idxs. split; [exact Hmap | split; [exact Hsorted|]].
    eapply Forall_impl; [|exact Hrange]. simpl. intros i Hi. lia.
  - vm_compute. reflexivity.
Qed.

(** ** Properties of the dispatcher and of the selector-driven extractor *)

Section DispatcherProperties.

Variable selector_valid : string -> bool.
Variable select_nodes : string -> node -> list node.
Variable page : Type.
Variable goto : string -> option page.
Variable click : page -> string -> option page.
Variable content : page -> node.
Variable page_url : page -> string.

#[local] Abbreviation with_selectors := (_scrape_with_selectors selector_valid select_nodes).
#[local] Abbreviation dispatch := (extract_document selector_valid select_nodes).
#[local] Abbreviation paginate :=
  (_handle_pagination page click content page_url).
#[local] Abbreviation popups := (_handle_popups page click).
#[local] Abbreviation scrape :=
  (scrape_url selector_valid select_nodes page goto click content page_url).

Lemma for_each_app {A S : Type} (body : S -> A -> result S) (l1 l2 : list A) (s : S) :
  for_each body (l1 ++ l2) s = (s' <- for_each body l1 s ;; for_each body l2 s').
Proof.
  revert s. induction l1 as [|x l1 IH]; intros s; simpl; [reflexivity|].
  destruct (body s x); simpl; [apply IH | reflexivity].
Qed.

(** Field selectors that are all well-formed raise nothing. *)
Lemma selector_fields_ok (container : node) (fields : dict string) (item : record) :
  (forall f s, In (f, s) fields -> f = "container" \/ selector_valid s = true) ->
  exists item',
    for_each (selector_field selector_valid select_nodes container) fields item
    = Ok item'.
Proof.
  revert item. induction fields as [|[f s] fields IH]; intros item Hvalid; simpl.
  - exists item. reflexivity.
  - assert (Hrest : forall f' s', In (f', s') fields ->
                                  f' = "container" \/ selector_valid s' = true)
      by (intros f' s' Hin; apply Hvalid; right; exact Hin).
    destruct (Hvalid f s (or_introl eq_refl)) as [Hf | Hs].
    + subst f. simpl. apply IH. exact Hrest.
    + destruct (String.eqb f "container"); simpl; [apply IH; exact Hrest|].
      unfold select_one, select. rewrite Hs. simpl. apply IH. exact Hrest.
Qed.

(** The first malformed field selector raises as soon as a container
    is visited. *)
Lemma selector_fields_raise (container : node) (pre post : dict string)
      (field selector : string) (item : record) :
  (forall f s, In (f, s) pre -> f = "container" \/ selector_valid s = true) ->
  String.eqb field "container" = false ->
  selector_valid selector = false ->
  for_each (selector_field selector_valid select_nodes container)
           (pre ++ (field, selector) :: post) item
  = Raise (SelectorSyntaxError selector).
Proof.
  intros Hpre Hfield Hbad. rewrite for_each_app.
  destruct (selector_fields_ok container pre item Hpre) as [item' Hok].
  rewrite Hok. simpl. rewrite Hfield.
  unfold select_one, select. rewrite Hbad. reflexivity.
Qed.

(** What [scrape_url] does when the configuration carries selectors
    and the page loads. *)
Lemma scrape_url_with_selectors (self_data : list record) (url : string)
      (cfg : config) (sels : dict string) (p0 : page) :
  selectors cfg = Some sels ->
  goto url = Some p0 ->
  scrape self_data url (Some cfg)
  = match with_selectors (content (popups p0)) sels with
    | Raise _ => ([Call_scrape_with_selectors (content (popups p0))], self_data)
    | Ok data =>
        if pagination cfg
        then (Call_scrape_with_selectors (content (popups p0))
                :: fst (paginate (popups p0) cfg),
              self_data ++ data ++ snd (paginate (popups p0) cfg))
        else ([Call_scrape_with_selectors (content (popups p0))], self_data ++ data)
    end.
Proof.
  intros Hsel Hgoto. unfold scrape_url, scrape_url_try. rewrite Hgoto.
  unfold extract_document. destruct cfg as [s pg mp nb]. simpl in Hsel. subst s.
  cbn [pagination].
  destruct (with_selectors (content (popups p0)) sels); [|reflexivity].
  destruct pg; [|reflexivity].
  destruct (paginate (popups p0) _). reflexivity.
Qed.

(** C6: when the configuration carries a selector mapping, the document
    goes to the selector-driven extractor and to nothing else: the only
    call made for it is [_scrape_with_selectors], its records are that
    extractor's, whatever the classifier would answer; in [scrape_url]
    that call comes first, no classifier call is made when pagination is
    off, and with pagination on every further call is one that
    [_handle_pagination] makes for the pages that follow. *)
Theorem selectors_bypass_classifier (soup : node) (url : string) (cfg : config)
        (sels : dict string) :
  selectors cfg = Some sels ->
  dispatch soup url (Some cfg)
  = ([Call_scrape_with_selectors soup], with_selectors soup sels)
  /\ existsb is_classifier_call (fst (dispatch soup url (Some cfg))) = false
  /\ (forall self_data p0,
        goto url = Some p0 ->
        exists later,
          fst (scrape self_data url (Some cfg))
          = Call_scrape_with_selectors (content (popups p0)) :: later
          /\ (later = [] \/ later = fst (paginate (popups p0) cfg))
          /\ (pagination cfg = false -> later = [])
          /\ (pagination cfg = false ->
              snd (scrape self_data url (Some cfg))
              = match with_selectors (content (popups p0)) sels with
                | Ok data => self_data ++ data
                | Raise _ => self_data
                end)).
Proof.
  intros Hsel.
  assert (Hd : dispatch soup url (Some cfg)
               = ([Call_scrape_with_selectors soup], with_selectors soup sels)).
  { unfold extract_document. destruct cfg as [s pg mp nb]. simpl in Hsel.
    subst s. reflexivity. }
  split; [exact Hd|]. split; [rewrite Hd; reflexivity|].
  intros self_data p0 Hgoto.
  rewrite (scrape_url_with_selectors self_data url cfg sels p0 Hsel Hgoto).
  destruct (with_selectors (content (popups p0)) sels) as [data | e].
  - destruct (pagination cfg).
    + eexists. split; [reflexivity|]. split; [right; reflexivity|].
      split; discriminate.
    + exists []. repeat split; auto.
  - exists []. repeat split; auto.
Qed.

(** C7, as the code has it: with a malformed field selector that no
    malformed selector precedes, [_scrape_with_selectors] returns an
    empty result without raising when the container selector matches
    nothing, and otherwise raises the selector engine's own syntax
    error, which carries the selector and not the field name;
    [scrape_url] catches that exception and returns the data gathered
    before, unchanged. *)
Theorem malformed_selector_is_swallowed (soup : node) (pre post : dict string)
        (field selector : string) :
  (forall f s, In (f, s) pre -> f = "container" \/ selector_valid s = true) ->
  String.eqb field "container" = false ->
  selector_valid selector = false ->
  selector_valid (main_selector (pre ++ (field, selector) :: post)) = true ->
  (select_nodes (main_selector (pre ++ (field, selector) :: post)) soup = [] ->
   with_selectors soup (pre ++ (field, selector) :: post) = Ok [])
  /\ (select_nodes (main_selector (pre ++ (field, selector) :: post)) soup <> [] ->
      with_selectors soup (pre ++ (field, selector) :: post)
      = Raise (SelectorSyntaxError selector))
  /\ (forall self_data url cfg p0,
        selectors cfg = Some (pre ++ (field, selector) :: post) ->
        goto url = Some p0 ->
        content (popups p0) = soup ->
        select_nodes (main_selector (pre ++ (field, selector) :: post)) soup <> [] ->
        scrape self_data url (Some cfg)
        = ([Call_scrape_with_selectors soup], self_data)).
Proof.
  intros Hpre Hfield Hbad Hmain.
  assert (Hraise :
    select_nodes (main_selector (pre ++ (field, selector) :: post)) soup <> [] ->
    with_selectors soup (pre ++ (field, selector) :: post)
    = Raise (SelectorSyntaxError selector)).
  { intros Hne. unfold _scrape_with_selectors, select. rewrite Hmain. simpl.
    destruct (select_nodes _ soup) as [|c cs]; [congruence|].
    simpl. unfold selector_container at 1.
    rewrite (selector_fields_raise c pre post field selector [] Hpre Hfield Hbad).
    reflexivity. }
  split; [|split; [exact Hraise|]].
  - intros Hnone. unfold _scrape_with_selectors, select.
    rewrite Hmain, Hnone. reflexivity.
  - intros self_data url cfg p0 Hsel Hgoto Hsoup Hne.
    rewrite (scrape_url_with_selectors self_data url cfg _ p0 Hsel Hgoto).
    rewrite Hsoup, (Hraise Hne). reflexivity.
Qed.

End DispatcherProperties.

(** C6 at [heading_page] with [good_config]: the selector-driven
    extractor is the only call and gives the record. *)
Lemma selectors_bypass_classifier_witness :
  extract_document tag_selector_valid tag_select_nodes heading_page
                   "http://example.com" (Some good_config)
  = ([Call_scrape_with_selectors heading_page],
     _scrape_with_selectors tag_selector_valid tag_select_nodes heading_page
                            [("title", "h2")]).
Proof.
  apply (proj1 (selectors_bypass_classifier
                  tag_selector_valid tag_select_nodes node
                  (static_goto heading_page) static_click static_content static_url
                  heading_page "http://example.com" good_config
                  [("title", "h2")] eq_refl)).
Defined.

(** C7 at [heading_page] with [bad_field_config]: the extractor raises
    the engine's error for the selector [h2[], and [scrape_url] returns
    the empty data it started with. *)
Lemma malformed_selector_is_swallowed_witness :
  _scrape_with_selectors tag_selector_valid tag_select_nodes heading_page
                         [("title", "h2[")]
  = Raise (SelectorSyntaxError "h2[")
  /\ scrape_url tag_selector_valid tag_select_nodes node
                (static_goto heading_page) static_click static_content static_url
                [] "http://example.com" (Some bad_field_config)
     = ([Call_scrape_with_selectors heading_page], []).
Proof.
  assert (Hpre : forall f s : string,
             In (f, s) [] -> f = "container" \/ tag_selector_valid s = true)
    by (intros f s []).
  pose proof (malformed_selector_is_swallowed
                tag_selector_valid tag_select_nodes node
                (static_goto heading_page) static_click static_content static_url
                heading_page [] [] "title" "h2[" Hpre eq_refl eq_refl eq_refl)
    as [_ [Hraise Hurl]].
  split.
  - apply Hraise. vm_compute. discriminate.
  - apply (Hurl [] "http://example.com" bad_field_config heading_page
                eq_refl eq_refl eq_refl).
    vm_compute. discriminate.
Defined.

(** C7 as stated fails at [heading_page]: with the malformed field
    selector [h2[], [scrape_url] raises nothing and returns an empty
    result; the extractor's own exception is the engine's syntax error
    on the selector, with no mention of the field [title]; and when the
    container selector matches nothing the extractor itself returns an
    empty result. *)
Lemma malformed_selector_counterexample :
  scrape_url tag_selector_valid tag_select_nodes node
             (static_goto heading_page) static_click static_content static_url
             [] "http://example.com" (Some bad_field_config)
  = ([Call_scrape_with_selectors heading_page], [])
  /\ _scrape_with_selectors tag_selector_valid tag_select_nodes heading_page
                            [("title", "h2[")]
     = Raise (SelectorSyntaxError "h2[")
  /\ _scrape_with_selectors tag_selector_valid tag_select_nodes heading_page
                            [("container", "article"); ("title", "h2[")]
     = Ok [].
Proof. vm_compute. repeat split. Qed.

(** ** The shape of the records *)

Lemma dict_set_keys {A : Type} (k k' : string) (v : A) (d : dict A) :
  In k' (map fst (dict_set k v d)) -> k' = k \/ In k' (map fst d).
Proof.
  induction d as [|[k0 v0] d IH]; simpl.
  - intros [H | []]. left. symmetry. exact H.
  - destruct (String.eqb k k0) eqn:E; simpl.
    + intros H. right. exact H.
    + intros [H | H]; [right; left; exact H|].
      destruct (IH H) as [H' | H']; [left; exact H' | right; right; exact H'].
Qed.

(** A dictionary built by assignments holds no key twice. *)
Lemma dict_set_nodup {A : Type} (k : string) (v : A) (d : dict A) :
  NoDup (map fst d) -> NoDup (map fst (dict_set k v d)).
Proof.
  induction d as [|[k0 v0] d IH]; simpl; intros Hd.
  - constructor; [intros [] | constructor].
  - destruct (String.eqb k k0) eqn:E; simpl; [exact Hd|].
    inversion Hd as [|? ? Hnotin Hd']; subst.
    constructor; [|apply IH; exact Hd'].
    intros Hin. apply dict_set_keys in Hin. destruct Hin as [Hin | Hin].
    + subst k0. rewrite String.eqb_refl in E. discriminate.
    + apply Hnotin. exact Hin.
Qed.

(** Assigning [k]: the other fields stay, the field [k] is new. *)
Lemma dict_set_fits (P : string -> pyval -> bool) (k : string) (v : pyval)
      (d : record) :
  NoDup (map fst d) ->
  (forall k' v', In (k', v') d -> String.eqb k k' = false -> P k' v' = true) ->
  P k v = true ->
  forallb (fun kv => P (fst kv) (snd kv)) (dict_set k v d) = true.
Proof.
  intros Hnd Hold Hnew. induction d as [|[k0 v0] d IH]; simpl.
  - rewrite Hnew. reflexivity.
  - inversion Hnd as [|? ? Hnotin Hnd']; subst.
    destruct (String.eqb k k0) eqn:E; simpl.
    + apply String.eqb_eq in E. subst k0. rewrite Hnew. simpl.
      apply forallb_forall. intros [k' v'] Hin. simpl.
      apply Hold; [right; exact Hin|].
      apply String.eqb_neq. intros ->. apply Hnotin.
      apply in_map_iff. exists (k', v'). split; [reflexivity | exact Hin].
    + rewrite (Hold k0 v0 (or_introl eq_refl) E). simpl.
      apply IH; [exact Hnd'|]. intros k' v' Hin. apply Hold. right. exact Hin.
Qed.

(** Storing a fitting field in a fitting record. *)
Lemma dict_set_record_fits strict schema (k : string) (v : pyval) (d : record) :
  record_fits strict schema d = true ->
  field_fits strict schema k v = true ->
  record_fits strict schema (dict_set k v d) = true.
Proof.
  intros Hd Hv. unfold record_fits in *.
  induction d as [|[k0 v0] d IH]; simpl.
  - rewrite Hv. reflexivity.
  - simpl in Hd. apply andb_true_iff in Hd. destruct Hd as [H0 Hd].
    destruct (String.eqb k k0) eqn:E; simpl.
    + apply String.eqb_eq in E. subst k0. rewrite Hv, Hd. reflexivity.
    + rewrite H0. simpl. apply IH. exact Hd.
Qed.

Lemma truthy_attr_is_str (k : string) (n : node) :
  truthy (attr_val k n) = true -> is_str (attr_val k n) = true.
Proof. unfold attr_val. destruct (get_attr k n); simpl; auto. Qed.

Lemma truthy_src_is_str (img : node) :
  truthy (py_or (attr_val "src" img) (attr_val "data-src" img)) = true ->
  is_str (py_or (attr_val "src" img) (attr_val "data-src" img)) = true.
Proof.
  unfold py_or. destruct (truthy (attr_val "src" img)) eqn:E.
  - intros _. apply truthy_attr_is_str. exact E.
  - apply truthy_attr_is_str.
Qed.

Lemma set_text_fits strict schema (k : string) (e : option node) (d : record) :
  record_fits strict schema d = true ->
  field_fits strict schema k (VStr "") = true ->
  record_fits strict schema (set_text k e d) = true.
Proof.
  intros Hd Hk. destruct e; simpl; [|exact Hd].
  apply dict_set_record_fits; [exact Hd|].
  unfold field_fits in *. destruct (kind_of schema k); simpl in *; auto.
Qed.

Lemma set_link_fits strict schema (container : node) (d : record) :
  record_fits strict schema d = true ->
  field_fits strict schema "link" (VStr "") = true ->
  record_fits strict schema (set_link container d) = true.
Proof.
  intros Hd Hk. unfold set_link.
  destruct (find _ container) as [link|]; [|exact Hd].
  destruct (truthy (attr_val "href" link)) eqn:E; [|exact Hd].
  apply dict_set_record_fits; [exact Hd|].
  apply truthy_attr_is_str in E.
  destruct (attr_val "href" link); try discriminate.
  unfold field_fits in *. destruct (kind_of schema "link"); simpl in *; auto.
Qed.

Lemma set_image_fits strict schema (container : node) (d : record) :
  record_fits strict schema d = true ->
  kind_of schema "image" = KAny ->
  record_fits strict schema (set_image container d) = true.
Proof.
  intros Hd Hk. unfold set_image.
  destruct (find _ container) as [img|]; [|exact Hd].
  apply dict_set_record_fits; [exact Hd|].
  unfold field_fits. rewrite Hk. destruct strict; reflexivity.
Qed.

(** The cells of a row are stored as strings, no header twice. *)
Lemma table_row_data_fits (headers : list string) (l : list (nat * node))
      (acc : record) :
  record_fits false [] acc = true /\ NoDup (map fst acc) ->
  record_fits false [] (fold_left (table_cell headers) l acc) = true
  /\ NoDup (map fst (fold_left (table_cell headers) l acc)).
Proof.
  revert acc. induction l as [|[idx c] l IH]; intros acc Hacc; [exact Hacc|].
  cbn [fold_left]. apply IH. unfold table_cell.
  destruct (idx <? List.length headers); [|exact Hacc].
  destruct Hacc as [Hfit Hnd]. split.
  - apply dict_set_record_fits; [exact Hfit | reflexivity].
  - apply dict_set_nodup. exact Hnd.
Qed.

Lemma table_records_fit (soup : node) (r : record) :
  In r (_scrape_tables soup) -> record_fits false table_schema r = true.
Proof.
  unfold _scrape_tables. intros H.
  apply in_flat_map in H. destruct H as [[i t] [_ H]]. simpl in H.
  unfold scrape_table in H.
  destruct (List.length _ <? 2); [destruct H|].
  destruct (find_all (name_in ["tr"]) t) as [|hr rows]; [destruct H|].
  apply in_flat_map in H. destruct H as [rw [_ H]].
  unfold table_row in H.
  destruct (List.length _ =? 0); [destruct H|].
  destruct (dict_nonempty _); [|destruct H].
  destruct H as [<- | []].
  destruct (table_row_data_fits (table_headers hr)
              (enumerate (find_all (name_in ["td"; "th"]) rw)) []
              (conj eq_refl (NoDup_nil _))) as [Hd Hnd].
  unfold record_fits. apply dict_set_fits; [exact Hnd | | reflexivity].
  intros k' v' Hin Hk.
  unfold record_fits in Hd. rewrite forallb_forall in Hd.
  specialize (Hd (k', v') Hin). simpl in Hd.
  unfold field_fits, kind_of, table_schema. simpl.
  rewrite String.eqb_sym, Hk. exact Hd.
Qed.

Lemma list_records_fit (soup : node) (r : record) :
  In r (_scrape_lists soup) -> record_fits true list_schema r = true.
Proof.
  unfold _scrape_lists. intros H.
  apply in_flat_map in H. destruct H as [[i lst] [_ H]]. simpl in H.
  unfold scrape_list in H.
  destruct (List.length _ <? 3); [destruct H|].
  apply in_map_iff in H. destruct H as [[j item] [<- _]]. simpl.
  unfold list_item. apply set_link_fits; reflexivity.
Qed.

Lemma card_record_fits (card_idx : nat) (card : node) :
  record_fits true card_schema (card_record card_idx card) = true.
Proof.
  unfold card_record.
  set (d4 := set_image card _).
  assert (H4 : record_fits true card_schema d4 = true).
  { unfold d4. apply set_image_fits; [|reflexivity].
    apply set_link_fits; [|reflexivity].
    apply set_text_fits; [|reflexivity].
    apply set_text_fits; reflexivity. }
  destruct (assoc "title" d4); [exact H4|].
  apply dict_set_record_fits; [exact H4 | reflexivity].
Qed.

Lemma product_data_fits (prod_idx : nat) (product : node) :
  record_fits true product_schema (product_data prod_idx product) = true.
Proof.
  unfold product_data.
  apply set_image_fits; [|reflexivity].
  apply set_link_fits; [|reflexivity].
  repeat (apply set_text_fits; [|reflexivity]).
  reflexivity.
Qed.

Lemma article_record_fits (soup : node) (url : string) :
  record_fits true article_schema (_scrape_article soup url) = true.
Proof.
  unfold _scrape_article.
  apply dict_set_record_fits.
  - match goal with
    | |- record_fits _ _ (match ?c with _ => _ end) = true => destruct c
    end.
    + apply dict_set_record_fits; [|reflexivity].
      apply dict_set_record_fits; [|reflexivity].
      repeat (apply set_text_fits; [|reflexivity]). reflexivity.
    + repeat (apply set_text_fits; [|reflexivity]). reflexivity.
  - unfold field_fits. simpl. apply forallb_forall.
    intros v Hv. apply in_map_iff in Hv. destruct Hv as [img [<- Himg]].
    apply filter_In in Himg. apply truthy_src_is_str. apply Himg.
Qed.

Lemma heading_record_fits (heading : node) (later : list node) :
  name_in headings heading = true ->
  record_fits true generic_schema (heading_record heading later) = true.
Proof.
  intros Hname. unfold heading_record.
  destruct heading as [s | nm c a cs]; [discriminate|]. simpl tag_name.
  destruct (next_sibling_of later); [|reflexivity].
  apply dict_set_record_fits; reflexivity.
Qed.

Lemma generic_records_fit (soup : node) (r : record) :
  In r (_scrape_generic soup) -> record_fits true generic_schema r = true.
Proof.
  unfold _scrape_generic.
  set (data := map _ (filter _ (descendants_ctx soup))).
  assert (Hdata : forall r', In r' data -> record_fits true generic_schema r' = true).
  { intros r' Hr'. unfold data in Hr'. apply in_map_iff in Hr'.
    destruct Hr' as [[h later] [<- Hin]]. apply filter_In in Hin.
    apply heading_record_fits. apply Hin. }
  destruct (dict_nonempty (unique_links soup)); [|apply Hdata].
  intros H. apply in_app_or in H. destruct H as [H | [<- | []]]; [apply Hdata; exact H|].
  unfold record_fits, field_fits. simpl. rewrite andb_true_r.
  apply forallb_forall. intros v Hv. apply in_map_iff in Hv.
  destruct Hv as [[k t] [<- _]]. reflexivity.
Qed.

Lemma for_each_invariant {A S : Type} (I : S -> Prop) (body : S -> A -> result S)
      (l : list A) (s r : S) :
  I s ->
  (forall s0 x s1, I s0 -> body s0 x = Ok s1 -> I s1) ->
  for_each body l s = Ok r ->
  I r.
Proof.
  intros Hs Hstep. revert s Hs. induction l as [|x l IH]; intros s Hs H; simpl in H.
  - inversion H. subst. exact Hs.
  - destruct (body s x) as [s1|e] eqn:E; simpl in H; [|discriminate].
    apply (IH s1); [eapply Hstep; eauto | exact H].
Qed.

Lemma selector_records_fit (selector_valid : string -> bool)
      (select_nodes : string -> node -> list node) (soup : node)
      (sels : dict string) (rs : list record) :
  _scrape_with_selectors selector_valid select_nodes soup sels = Ok rs ->
  forall r, In r rs -> record_fits false [] r = true.
Proof.
  unfold _scrape_with_selectors. intros H.
  destruct (select selector_valid select_nodes (main_selector sels) soup)
    as [containers|e]; simpl in H; [|discriminate].
  revert H.
  apply (for_each_invariant
           (fun data => forall r, In r data -> record_fits false [] r = true)).
  - intros r [].
  - intros data c data' Hdata Hstep. unfold selector_container in Hstep.
    destruct (for_each (selector_field selector_valid select_nodes c) sels [])
      as [item|e] eqn:E; simpl in Hstep; [|discriminate].
    assert (Hitem : record_fits false [] item = true).
    { revert E.
      apply (for_each_invariant (fun it => record_fits false [] it = true));
        [reflexivity|].
      intros it [f sel] it' Hit Hf. unfold selector_field in Hf.
      destruct (String.eqb f "container"); [inversion Hf; subst; exact Hit|].
      destruct (select_one selector_valid select_nodes sel c) as [elem|e];
        simpl in Hf; [|discriminate].
      inversion Hf. subst. apply set_text_fits; [exact Hit | reflexivity]. }
    inversion Hstep. subst data'. intros r Hr.
    destruct (dict_nonempty item); [|apply Hdata; exact Hr].
    apply in_app_or in Hr. destruct Hr as [Hr | [<- | []]];
      [apply Hdata; exact Hr | exact Hitem].
Qed.

(** C8, as the code has it: every record of the list, cards, products,
    article and generic strategies has non-empty field names, and every
    record of every strategy holds strings except in the fields its
    schema names: the integer index fields, [word_count] (an integer)
    and [images] (a list of strings) of the article record, [links] (a
    list of url/text dictionaries) of the generic links record; the
    names of a table record are the header cells and those of a
    selector-driven record the configuration keys, empty ones included;
    a field that is not found is left out.  The [image] field of cards
    and products is not constrained here. *)
Theorem records_fit_their_schema (selector_valid : string -> bool)
        (select_nodes : string -> node -> list node)
        (soup : node) (url : string) (sels : dict string) :
  (forall r, In r (_scrape_tables soup) -> record_fits false table_schema r = true)
  /\ (forall r, In r (_scrape_lists soup) -> record_fits true list_schema r = true)
  /\ (forall r, In r (_scrape_cards soup) -> record_fits true card_schema r = true)
  /\ (forall r, In r (_scrape_products soup) ->
                record_fits true product_schema r = true)
  /\ record_fits true article_schema (_scrape_article soup url) = true
  /\ (forall r, In r (_scrape_generic soup) ->
                record_fits true generic_schema r = true)
  /\ (forall rs,
        _scrape_with_selectors selector_valid select_nodes soup sels = Ok rs ->
        forall r, In r rs -> record_fits false [] r = true).
Proof.
  split; [apply table_records_fit|].
  split; [apply list_records_fit|].
  split.
  { intros r Hr. unfold _scrape_cards in Hr. apply in_map_iff in Hr.
    destruct Hr as [[i c] [<- _]]. apply card_record_fits. }
  split.
  { intros r Hr. unfold _scrape_products in Hr. apply filter_In in Hr.
    destruct Hr as [Hr _]. apply in_map_iff in Hr.
    destruct Hr as [[i c] [<- _]]. apply product_data_fits. }
  split; [apply article_record_fits|].
  split; [apply generic_records_fit|].
  intros rs. apply selector_records_fit.
Qed.

(** C8 as stated fails: the article record of [heading_page] holds a
    list under [images], and the record of a table with an empty header
    cell has an empty field name. *)
Lemma record_shape_counterexample :
  spec_record_ok (_scrape_article heading_page "http://example.com") = false
  /\ _scrape_article heading_page "http://example.com"
     = [("url", VStr "http://example.com"); ("images", VList [])]
  /\ spec_record_ok
       [("Name", VStr "Alice"); ("", VStr "10"); ("_table_index", VInt 0)] = false
  /\ In [("Name", VStr "Alice"); ("", VStr "10"); ("_table_index", VInt 0)]
        (_scrape_tables (document [blank_header_table])).
Proof.
  split; [vm_compute; reflexivity|].
  split; [vm_compute; reflexivity|].
  split; [vm_compute; reflexivity|].
  vm_compute. left. reflexivity.
Qed.

(** * Further properties of the code *)

(** ** Table extraction: provenance and cell lookup *)

Lemma scrape_table_index (table_idx : nat) (table : node) (r : record) :
  In r (scrape_table table_idx table) ->
  assoc "_table_index" r = Some (vint table_idx).
Proof.
  unfold scrape_table. intros H.
  destruct (List.length _ <? 2); [destruct H|].
  destruct (find_all (name_in ["tr"]) table) as [|hr rows]; [destruct H|].
  apply in_flat_map in H. destruct H as [rw [_ H]].
  unfold table_row in H.
  destruct (List.length _ =? 0); [destruct H|].
  destruct (dict_nonempty _); [|destruct H].
  destruct H as [<- | []]. apply assoc_dict_set_same.
Qed.

Lemma sorted_repeat_app (s n : nat) (idxs : list nat) :
  StronglySorted le idxs ->
  Forall (fun i => s <= i) idxs ->
  StronglySorted le (repeat s n ++ idxs).
Proof.
  intros Hs Hle. induction n as [|n IH]; simpl; [exact Hs|].
  constructor; [exact IH|].
  apply Forall_app. split; [|exact Hle].
  apply Forall_forall. intros x Hx. apply repeat_spec in Hx. lia.
Qed.

Lemma table_indices_from (l : list node) (s : nat) :
  exists idxs,
    map (assoc "_table_index")
        (flat_map (fun it => scrape_table (fst it) (snd it))
                  (combine (seq s (List.length l)) l))
    = map (fun i => Some (vint i)) idxs
    /\ StronglySorted le idxs
    /\ Forall (fun i => s <= i < s + List.length l) idxs.
Proof.
  revert s. induction l as [|t l IH]; intros s.
  - exists []. repeat split; constructor.
  - destruct (IH (S s)) as (idxs & Hmap & Hsorted & Hrange).
    cbn [List.length seq combine].
    replace (flat_map (fun it => scrape_table (fst it) (snd it))
                      ((s, t) :: combine (seq (S s) (List.length l)) l))
      with (scrape_table s t
            ++ flat_map (fun it => scrape_table (fst it) (snd it))
                        (combine (seq (S s) (List.length l)) l))
      by reflexivity.
    exists (repeat s (List.length (scrape_table s t)) ++ idxs).
    split; [|split].
    + rewrite !map_app. f_equal; [|exact Hmap].
      assert (Hall : forall r, In r (scrape_table s t) ->
                               assoc "_table_index" r = Some (vint s))
        by (intros r; apply scrape_table_index).
      induction (scrape_table s t) as [|r rs IHrs]; [reflexivity|].
      simpl. rewrite (Hall r (or_introl eq_refl)). f_equal.
      apply IHrs. intros r' Hr'. apply Hall. right. exact Hr'.
    + apply sorted_repeat_app; [exact Hsorted|].
      eapply Forall_impl; [|exact Hrange]. simpl. intros i Hi. lia.
    + apply Forall_app. split.
      * apply Forall_forall. intros x Hx. apply repeat_spec in Hx. lia.
      * eapply Forall_impl; [|exact Hrange]. simpl. intros i Hi. lia.
Qed.

(** X1: every record of table extraction carries, as [_table_index],
    the 0-based position of its table among all [<table>] elements of
    the document, and the records come out table after table: the
    indices of the output never decrease. *)
Theorem table_index_is_table_position (soup : node) :
  (forall r, In r (_scrape_tables soup) ->
     exists table_idx table,
       nth_error (find_all (name_in ["table"]) soup) table_idx = Some table
       /\ In r (scrape_table table_idx table)
       /\ assoc "_table_index" r = Some (vint table_idx))
  /\ (exists idxs,
        map (assoc "_table_index") (_scrape_tables soup)
        = map (fun i => Some (vint i)) idxs
        /\ StronglySorted le idxs
        /\ Forall (fun i => i < List.length (find_all (name_in ["table"]) soup)) idxs).
Proof.
  split.
  - intros r Hr. unfold _scrape_tables in Hr.
    apply in_flat_map in Hr. destruct Hr as [[i t] [Hit Hr]].
    apply in_enumerate in Hit. simpl in Hr.
    exists i, t. split; [exact Hit|]. split; [exact Hr|].
    apply (scrape_table_index i t r Hr).
  - unfold _scrape_tables, enumerate.
    destruct (table_indices_from (find_all (name_in ["table"]) soup) 0)
      as (idxs & Hmap & Hsorted & Hrange).
    exists idxs. split; [exact Hmap|]. split; [exact Hsorted|].
    eapply Forall_impl; [|exact Hrange]. simpl. intros i Hi. lia.
Qed.

(** The loop over the cells, seen from one header. *)
Lemma table_cell_fold_lookup (headers : list string) (i : nat) :
  NoDup headers ->
  i < List.length headers ->
  forall (cells : list node) (s : nat) (acc : record),
    assoc (nth i headers "")
          (fold_left (table_cell headers)
                     (combine (seq s (List.length cells)) cells) acc)
    = if (s <=? i) && (i <? s + List.length cells)
      then Some (VStr (get_text_strip (nth (i - s) cells (Text ""))))
      else assoc (nth i headers "") acc.
Proof.
  intros Hnd Hi cells. induction cells as [|c cells IH]; intros s acc.
  - simpl. rewrite Nat.add_0_r.
    destruct (s <=? i) eqn:E1; simpl; [|reflexivity].
    apply Nat.leb_le in E1.
    destruct (i <? s) eqn:E2; [apply Nat.ltb_lt in E2; lia | reflexivity].
  - cbn [List.length seq combine fold_left]. rewrite IH.
    destruct (S s <=? i) eqn:E1.
    + apply Nat.leb_le in E1.
      assert (Hs : (s <=? i) = true) by (apply Nat.leb_le; lia).
      rewrite Hs.
      replace (S s + List.length cells) with (s + S (List.length cells)) by lia.
      simpl andb. destruct (i <? s + S (List.length cells)); [|].
      * replace (i - s) with (S (i - S s)) by lia. reflexivity.
      * unfold table_cell.
        destruct (s <? List.length headers) eqn:E3; [|reflexivity].
        apply Nat.ltb_lt in E3. apply assoc_dict_set_other.
        apply String.eqb_neq. intros Heq.
        apply (proj1 (NoDup_nth headers "") Hnd i s Hi E3) in Heq. lia.
    + apply Nat.leb_gt in E1. simpl andb.
      destruct (s <=? i) eqn:E2; simpl andb.
      * apply Nat.leb_le in E2. assert (i = s) by lia. subst i.
        assert (Hlt : (s <? s + S (List.length cells)) = true)
          by (apply Nat.ltb_lt; lia).
        rewrite Hlt, Nat.sub_diag. unfold table_cell.
        assert (Hh : (s <? List.length headers) = true)
          by (apply Nat.ltb_lt; exact Hi).
        rewrite Hh. simpl nth. apply assoc_dict_set_same.
      * apply Nat.leb_gt in E2. unfold table_cell.
        destruct (s <? List.length headers) eqn:E3; [|reflexivity].
        apply Nat.ltb_lt in E3. apply assoc_dict_set_other.
        apply String.eqb_neq. intros Heq.
        apply (proj1 (NoDup_nth headers "") Hnd i s Hi E3) in Heq. lia.
Qed.

(** X2: when the header names of a table are pairwise different, the
    record of a data row gives back, under the [i]-th header, the
    stripped text of the row's [i]-th cell, for every [i] below the
    number of headers and of cells (a header named [_table_index]
    excepted, which the index overwrites). *)
Theorem table_record_lookup (headers : list string) (table_idx : nat)
        (rw : node) (r : record) (i : nat) :
  NoDup headers ->
  In r (table_row headers table_idx rw) ->
  i < List.length headers ->
  i < List.length (row_cells rw) ->
  nth i headers "" <> "_table_index" ->
  assoc (nth i headers "") r
  = Some (VStr (get_text_strip (nth i (row_cells rw) (Text "")))).
Proof.
  intros Hnd Hr Hi Hc Hne. unfold table_row in Hr. fold (row_cells rw) in Hr.
  destruct (List.length (row_cells rw) =? 0); [destruct Hr|].
  destruct (dict_nonempty _); [|destruct Hr].
  destruct Hr as [<- | []].
  rewrite assoc_dict_set_other by (apply String.eqb_neq; exact Hne).
  unfold table_row_data, enumerate.
  rewrite (table_cell_fold_lookup headers i Hnd Hi (row_cells rw) 0 []).
  assert (Hlt : (i <? 0 + List.length (row_cells rw)) = true)
    by (apply Nat.ltb_lt; simpl; exact Hc).
  rewrite Hlt, Nat.sub_0_r. reflexivity.
Qed.

(** X2 at a row of two cells under the headers Name and Score. *)
Lemma table_record_lookup_witness :
  assoc "Score" [("Name", VStr "Alice"); ("Score", VStr "10"); ("_table_index", VInt 0)]
  = Some (VStr (get_text_strip (nth 1 (row_cells (row ["Alice"; "10"])) (Text "")))).
Proof.
  apply (table_record_lookup ["Name"; "Score"] 0 (row ["Alice"; "10"])
           [("Name", VStr "Alice"); ("Score", VStr "10"); ("_table_index", VInt 0)] 1).
  - repeat constructor; simpl; intuition discriminate.
  - vm_compute. left. reflexivity.
  - simpl. lia.
  - vm_compute. lia.
  - simpl. discriminate.
Defined.

(** ** List extraction: how many records *)

Lemma enumerate_length {A : Type} (l : list A) :
  List.length (enumerate l) = List.length l.
Proof.
  unfold enumerate. rewrite length_combine, length_seq. apply Nat.min_id.
Qed.

Lemma scrape_list_length (list_idx : nat) (lst : node) :
  List.length (scrape_list list_idx lst) = list_contribution lst.
Proof.
  unfold scrape_list, list_contribution. fold (list_items lst).
  destruct (List.length (list_items lst) <? 3); [reflexivity|].
  rewrite length_map. apply enumerate_length.
Qed.

Lemma flat_map_indexed_length {A B : Type} (f : nat -> A -> list B) (g : A -> nat)
      (l : list A) (s : nat) :
  (forall i x, List.length (f i x) = g x) ->
  List.length (flat_map (fun ix => f (fst ix) (snd ix))
                        (combine (seq s (List.length l)) l))
  = list_sum (map g l).
Proof.
  intros H. revert s. induction l as [|x l IH]; intros s; [reflexivity|].
  cbn [List.length seq combine map list_sum fold_right].
  replace (flat_map (fun ix => f (fst ix) (snd ix))
                    ((s, x) :: combine (seq (S s) (List.length l)) l))
    with (f s x ++ flat_map (fun ix => f (fst ix) (snd ix))
                            (combine (seq (S s) (List.length l)) l))
    by reflexivity.
  rewrite length_app, H, IH. reflexivity.
Qed.

Lemma list_sum_zero (l : list nat) :
  list_sum l = 0 <-> Forall (fun n => n = 0) l.
Proof.
  induction l as [|n l IH]; simpl.
  - split; [constructor | reflexivity].
  - split.
    + intros H. constructor; [lia | apply IH; lia].
    + intros H. inversion H; subst. apply IH in H3. lia.
Qed.

(** X3: list extraction yields, for each [<ul>]/[<ol>] of the document
    taken on its own, as many records as the list has direct [<li>]
    children when these are 3 or more, and none otherwise (a nested
    list counts as a list of its own); so the result is empty exactly
    when every list of the document has fewer than 3 direct items. *)
Theorem list_record_count (soup : node) :
  List.length (_scrape_lists soup)
  = list_sum (map list_contribution (find_all (name_in ["ul"; "ol"]) soup))
  /\ (_scrape_lists soup = []
      <-> forall lst, In lst (find_all (name_in ["ul"; "ol"]) soup) ->
                      List.length (list_items lst) < 3).
Proof.
  assert (Hlen : List.length (_scrape_lists soup)
                 = list_sum (map list_contribution
                                 (find_all (name_in ["ul"; "ol"]) soup))).
  { unfold _scrape_lists, enumerate.
    apply (flat_map_indexed_length scrape_list list_contribution).
    apply scrape_list_length. }
  split; [exact Hlen|].
  assert (Hsmall : forall lst, list_contribution lst = 0
                               <-> List.length (list_items lst) < 3).
  { intros lst. unfold list_contribution.
    destruct (List.length (list_items lst) <? 3) eqn:E.
    - apply Nat.ltb_lt in E. split; auto.
    - apply Nat.ltb_ge in E. split; lia. }
  split.
  - intros Hnil lst Hin. apply Hsmall.
    rewrite Hnil in Hlen. simpl in Hlen. symmetry in Hlen.
    apply list_sum_zero in Hlen. rewrite Forall_forall in Hlen.
    apply Hlen. apply in_map. exact Hin.
  - intros Hall.
    assert (H0 : List.length (_scrape_lists soup) = 0).
    { rewrite Hlen. apply list_sum_zero. apply Forall_forall.
      intros n Hn. apply in_map_iff in Hn. destruct Hn as [lst [<- Hin]].
      apply Hsmall. apply Hall. exact Hin. }
    destruct (_scrape_lists soup); [reflexivity | discriminate].
Qed.

(** ** Cards extraction: indices, title and fallback text *)

Lemma take_length (n : nat) (s : string) : String.length (PyStr.take n s) <= n.
Proof.
  revert s. induction n as [|n IH]; intros s; simpl; [lia|].
  destruct s as [|c s]; simpl; [lia|]. specialize (IH s). lia.
Qed.

(** The record of a card up to the image, seen from the keys [title]
    and [text]. *)
Lemma card_record_title_text (card_idx : nat) (card : node) :
  match or_node (find (name_in headings) card)
                (find (class_matches (Re.alt ["title"; "heading"])) card) with
  | Some e =>
      assoc "title" (card_record card_idx card) = Some (VStr (get_text_strip e))
      /\ assoc "text" (card_record card_idx card) = None
  | None =>
      assoc "title" (card_record card_idx card) = None
      /\ assoc "text" (card_record card_idx card)
         = Some (VStr (PyStr.take 200 (get_text_strip card)))
  end.
Proof.
  unfold card_record.
  set (title := or_node _ _).
  set (d4 := set_image card _).
  assert (Ht : assoc "title" d4
               = match title with
                 | Some e => Some (VStr (get_text_strip e))
                 | None => None
                 end).
  { unfold d4. rewrite assoc_set_image, assoc_set_link, assoc_set_text by reflexivity.
    destruct title; reflexivity. }
  assert (Hx : assoc "text" d4 = None).
  { unfold d4. rewrite assoc_set_image, assoc_set_link, !assoc_set_text by reflexivity.
    reflexivity. }
  rewrite Ht. destruct title as [e|].
  - split; [exact Ht | exact Hx].
  - split; [|apply assoc_dict_set_same].
    rewrite assoc_dict_set_other by reflexivity. exact Ht.
Qed.

Lemma card_record_index (card_idx : nat) (card : node) :
  assoc "_card_index" (card_record card_idx card) = Some (vint card_idx).
Proof.
  unfold card_record.
  set (d4 := set_image card _).
  assert (H4 : assoc "_card_index" d4 = Some (vint card_idx)).
  { unfold d4. rewrite assoc_set_image, assoc_set_link, !assoc_set_text by reflexivity.
    reflexivity. }
  destruct (assoc "title" d4); [exact H4|].
  rewrite assoc_dict_set_other by reflexivity. exact H4.
Qed.

Lemma map_indexed_seq {A B C : Type} (f : nat -> A -> B) (g : B -> C) (h : nat -> C)
      (l : list A) (s : nat) :
  (forall i x, g (f i x) = h i) ->
  map g (map (fun ix => f (fst ix) (snd ix)) (combine (seq s (List.length l)) l))
  = map h (seq s (List.length l)).
Proof.
  intros H. revert s. induction l as [|x l IH]; intros s; [reflexivity|].
  cbn [List.length seq combine map fst snd]. rewrite H, IH. reflexivity.
Qed.

(** X4: cards extraction drops no candidate, so the [_card_index]
    values of its output are 0, 1, 2, ... without a gap, one per
    candidate of the selected set. *)
Theorem card_indices_consecutive (soup : node) :
  map (assoc "_card_index") (_scrape_cards soup)
  = map (fun i => Some (vint i)) (seq 0 (List.length (select_cards soup))).
Proof.
  unfold _scrape_cards, enumerate.
  apply (map_indexed_seq card_record (assoc "_card_index")
                         (fun i => Some (vint i))).
  apply card_record_index.
Qed.

(** X5: a card record has either a [title] or a [text], never both and
    never neither.  The title is the text of the first heading
    [h1]-[h6] below the card, or failing that of the first element
    whose class matches [title|heading], and it stands even when that
    text is empty; only when no such element exists is [text] stored,
    the card's own text cut to at most 200 characters. *)
Theorem card_title_or_text (soup : node) (r : record) :
  In r (_scrape_cards soup) ->
  exists card_idx card,
    nth_error (select_cards soup) card_idx = Some card
    /\ match or_node (find (name_in headings) card)
                     (find (class_matches (Re.alt ["title"; "heading"])) card) with
       | Some e =>
           assoc "title" r = Some (VStr (get_text_strip e))
           /\ assoc "text" r = None
       | None =>
           assoc "title" r = None
           /\ assoc "text" r = Some (VStr (PyStr.take 200 (get_text_strip card)))
           /\ String.length (PyStr.take 200 (get_text_strip card)) <= 200
       end.
Proof.
  unfold _scrape_cards. intros H. apply in_map_iff in H.
  destruct H as [[i c] [<- Hin]]. apply in_enumerate in Hin. cbn [fst snd].
  exists i, c. split; [exact Hin|].
  pose proof (card_record_title_text i c) as Hc.
  destruct (or_node _ _) as [e|]; [exact Hc|].
  destruct Hc as [H1 H2]. split; [exact H1|]. split; [exact H2|].
  apply take_length.
Qed.

(** X5 at [tie_page]: its first card has no heading and no title
    class, and gets the fallback text. *)
Lemma card_title_or_text_witness :
  exists card_idx card,
    nth_error (select_cards tie_page) card_idx = Some card
    /\ match or_node (find (name_in headings) card)
                     (find (class_matches (Re.alt ["title"; "heading"])) card) with
       | Some e =>
           assoc "title" [("_card_index", VInt 0); ("text", VStr "c1")]
           = Some (VStr (get_text_strip e))
           /\ assoc "text" [("_card_index", VInt 0); ("text", VStr "c1")] = None
       | None =>
           assoc "title" [("_card_index", VInt 0); ("text", VStr "c1")] = None
           /\ assoc "text" [("_card_index", VInt 0); ("text", VStr "c1")]
              = Some (VStr (PyStr.take 200 (get_text_strip card)))
           /\ String.length (PyStr.take 200 (get_text_strip card)) <= 200
       end.
Proof.
  apply (card_title_or_text tie_page).
  vm_compute. left. reflexivity.
Defined.

(** ** The article record *)

(** X6: the article record always holds the [url] it was given and an
    [images] list, whose entries are non-empty strings; [content] and
    [word_count] come together or not at all, and [word_count] is the
    number of white-space separated words of [content]. *)
Theorem article_record_invariants (soup : node) (url : string) :
  assoc "url" (_scrape_article soup url) = Some (VStr url)
  /\ (exists srcs,
        assoc "images" (_scrape_article soup url) = Some (VList srcs)
        /\ Forall (fun v => exists s, v = VStr s /\ s <> "") srcs)
  /\ ((assoc "content" (_scrape_article soup url) = None
       /\ assoc "word_count" (_scrape_article soup url) = None)
      \/ (exists text,
            assoc "content" (_scrape_article soup url) = Some (VStr text)
            /\ assoc "word_count" (_scrape_article soup url)
               = Some (vint (PyStr.count_words text)))).
Proof.
  unfold _scrape_article.
  set (d3 := set_text "date" _ (set_text "author" _ (set_text "title" _ _))).
  set (content := or_node (find (name_in ["article"]) soup) _).
  set (srcs := map _ (filter _ (find_all (name_in ["img"]) soup))).
  assert (Hurl3 : assoc "url" d3 = Some (VStr url))
    by (unfold d3; rewrite !assoc_set_text by reflexivity; reflexivity).
  assert (Hc3 : assoc "content" d3 = None)
    by (unfold d3; rewrite !assoc_set_text by reflexivity; reflexivity).
  assert (Hw3 : assoc "word_count" d3 = None)
    by (unfold d3; rewrite !assoc_set_text by reflexivity; reflexivity).
  split; [|split].
  - rewrite assoc_dict_set_other by reflexivity.
    destruct content; [|exact Hurl3].
    rewrite !assoc_dict_set_other by reflexivity. exact Hurl3.
  - exists srcs. split; [apply assoc_dict_set_same|].
    apply Forall_forall. intros v Hv. unfold srcs in Hv.
    apply in_map_iff in Hv. destruct Hv as [img [<- Himg]].
    apply filter_In in Himg. destruct Himg as [_ Ht].
    destruct (py_or (attr_val "src" img) (attr_val "data-src" img)) eqn:E;
      simpl in Ht; try discriminate.
    + exists s. split; [reflexivity|]. intros ->. discriminate.
    + pose proof (truthy_src_is_str img) as Hs. rewrite E in Hs.
      specialize (Hs Ht). discriminate.
    + pose proof (truthy_src_is_str img) as Hs. rewrite E in Hs.
      specialize (Hs Ht). discriminate.
    + pose proof (truthy_src_is_str img) as Hs. rewrite E in Hs.
      specialize (Hs Ht). discriminate.
  - rewrite !(assoc_dict_set_other _ "images") by reflexivity.
    destruct content as [c|].
    + right. eexists. split.
      * rewrite assoc_dict_set_other by reflexivity. apply assoc_dict_set_same.
      * apply assoc_dict_set_same.
    + left. split; [exact Hc3 | exact Hw3].
Qed.

(** ** Generic extraction: headings and links *)

Lemma descendants_ctx_fst : forall n, map fst (descendants_ctx n) = descendants n.
Proof.
  fix IH 1. intros [s | nm c a cs]; [reflexivity|].
  simpl. induction cs as [|x cs IHcs]; [reflexivity|].
  simpl. rewrite map_app, IH, IHcs. reflexivity.
Qed.

Lemma filter_on_fst {A B : Type} (p : A -> bool) (l : list (A * B)) :
  map fst (filter (fun ab => p (fst ab)) l) = filter p (map fst l).
Proof.
  induction l as [|[a b] l IH]; simpl; [reflexivity|].
  destruct (p a); simpl; rewrite IH; reflexivity.
Qed.

Lemma heading_record_type_text (heading : node) (later : list node) :
  assoc "type" (heading_record heading later)
  = Some (match tag_name heading with Some nm => VStr nm | None => VNone end)
  /\ assoc "text" (heading_record heading later)
     = Some (VStr (get_text_strip heading)).
Proof.
  unfold heading_record. destruct (next_sibling_of later).
  - rewrite !assoc_dict_set_other by reflexivity. split; reflexivity.
  - split; reflexivity.
Qed.

Lemma fold_left_filter_map {A B S : Type} (p : A -> bool) (g : A -> B)
      (f : S -> B -> S) (l : list A) (a : S) :
  fold_left (fun acc x => if p x then f acc (g x) else acc) l a
  = fold_left f (map g (filter p l)) a.
Proof.
  revert a. induction l as [|x l IH]; intros a; simpl; [reflexivity|].
  destruct (p x); simpl; apply IH.
Qed.

(** [unique_links] as a sequence of assignments of the kept pairs. *)
Lemma unique_links_fold (soup : node) :
  unique_links soup
  = fold_left (fun (acc : dict string) kv => dict_set (fst kv) (snd kv) acc)
              (qualifying_links soup) [].
Proof.
  unfold unique_links, qualifying_links.
  rewrite <- (fold_left_filter_map link_qualifies
                (fun link => (href_of link, get_text_strip link))
                (fun (acc : dict string) kv => dict_set (fst kv) (snd kv) acc)).
  reflexivity.
Qed.

Lemma assoc_app {A : Type} (k : string) (l1 l2 : dict A) :
  assoc k (l1 ++ l2)
  = match assoc k l1 with Some v => Some v | None => assoc k l2 end.
Proof.
  induction l1 as [|[k0 v0] l1 IH]; simpl; [reflexivity|].
  destruct (String.eqb k k0); [reflexivity | exact IH].
Qed.

Lemma assoc_in {A : Type} (k : string) (v : A) (l : dict A) :
  assoc k l = Some v -> In (k, v) l.
Proof.
  induction l as [|[k0 v0] l IH]; simpl; [discriminate|].
  destruct (String.eqb k k0) eqn:E.
  - apply String.eqb_eq in E. subst k0. intros H. inversion H. left. reflexivity.
  - intros H. right. apply IH. exact H.
Qed.

Lemma in_assoc_nodup {A : Type} (k : string) (v : A) (l : dict A) :
  NoDup (map fst l) -> In (k, v) l -> assoc k l = Some v.
Proof.
  induction l as [|[k0 v0] l IH]; simpl; intros Hnd Hin; [destruct Hin|].
  inversion Hnd as [|? ? Hnotin Hnd']; subst.
  destruct Hin as [Heq | Hin].
  - inversion Heq; subst. rewrite String.eqb_refl. reflexivity.
  - destruct (String.eqb k k0) eqn:E.
    + apply String.eqb_eq in E. subst k0. exfalso. apply Hnotin.
      apply in_map_iff. exists (k, v). split; [reflexivity | exact Hin].
    + apply IH; assumption.
Qed.

(** After a sequence of assignments a key holds the value assigned
    last. *)
Lemma assignments_last_wins {A : Type} (k : string) (l : dict A) (acc : dict A) :
  assoc k (fold_left (fun a kv => dict_set (fst kv) (snd kv) a) l acc)
  = match assoc k (rev l) with Some v => Some v | None => assoc k acc end.
Proof.
  revert acc. induction l as [|[k0 v0] l IH]; intros acc; [reflexivity|].
  cbn [fold_left rev fst snd]. rewrite IH, assoc_app.
  destruct (assoc k (rev l)); [reflexivity|].
  simpl. destruct (String.eqb k k0) eqn:E.
  - apply String.eqb_eq in E. subst k0. apply assoc_dict_set_same.
  - apply assoc_dict_set_other. exact E.
Qed.

Lemma assignments_nodup {A : Type} (l : dict A) (acc : dict A) :
  NoDup (map fst acc) ->
  NoDup (map fst (fold_left (fun a kv => dict_set (fst kv) (snd kv) a) l acc)).
Proof.
  revert acc. induction l as [|[k0 v0] l IH]; intros acc Hacc; [exact Hacc|].
  cbn [fold_left]. apply IH. apply dict_set_nodup. exact Hacc.
Qed.

(** X7: the links of generic extraction are deduplicated by their
    [href]: no [href] occurs twice, the text kept for an [href] is the
    text of the last anchor with that [href] among the anchors kept,
    and every anchor kept has a non-empty [href] and a stripped text of
    more than 2 characters. *)
Theorem unique_links_last_text_wins (soup : node) :
  NoDup (keys (unique_links soup))
  /\ (forall href,
        assoc href (unique_links soup) = assoc href (rev (qualifying_links soup)))
  /\ (forall href text,
        In (href, text) (unique_links soup) ->
        href <> "" /\ 2 < String.length text
        /\ In (href, text) (qualifying_links soup)).
Proof.
  assert (Hnd : NoDup (keys (unique_links soup))).
  { rewrite unique_links_fold. apply assignments_nodup. constructor. }
  assert (Hlast : forall href,
             assoc href (unique_links soup)
             = assoc href (rev (qualifying_links soup))).
  { intros href. rewrite unique_links_fold, assignments_last_wins.
    destruct (assoc href (rev (qualifying_links soup))); reflexivity. }
  split; [exact Hnd|]. split; [exact Hlast|].
  intros href text Hin.
  apply (in_assoc_nodup href text _ Hnd) in Hin.
  rewrite Hlast in Hin. apply assoc_in in Hin. apply in_rev in Hin.
  assert (Hq := Hin). unfold qualifying_links in Hq.
  apply in_map_iff in Hq. destruct Hq as [link [Heq Hl]].
  apply filter_In in Hl. destruct Hl as [_ Hl].
  inversion Heq; subst. unfold link_qualifies in Hl.
  apply andb_true_iff in Hl. destruct Hl as [Hl Hlen].
  apply andb_true_iff in Hl. destruct Hl as [Hh _].
  split; [|split; [apply Nat.ltb_lt; exact Hlen | exact Hin]].
  intros E. rewrite E in Hh. discriminate.
Qed.

Lemma name_in_tag_in (names : list string) (n : node) :
  name_in names n = true -> exists nm, tag_name n = Some nm /\ In nm names.
Proof.
  destruct n as [s | nm c a cs]; simpl; [discriminate|].
  intros H. apply existsb_exists in H. destruct H as [x [Hin Hx]].
  apply String.eqb_eq in Hx. subst x. exists nm. split; [reflexivity | exact Hin].
Qed.

(** X8: generic extraction yields one record per heading [h1]-[h6] of
    the document, in document order, each with the heading's tag name
    as [type] and its stripped text as [text], followed by exactly one
    more record when some anchor is kept as a link, and by none
    otherwise. *)
Theorem generic_headings_then_links (soup : node) :
  List.length (_scrape_generic soup)
  = List.length (find_all (name_in headings) soup)
    + (match qualifying_links soup with [] => 0 | _ => 1 end)
  /\ map (assoc "text")
         (firstn (List.length (find_all (name_in headings) soup))
                 (_scrape_generic soup))
     = map (fun h => Some (VStr (get_text_strip h)))
           (find_all (name_in headings) soup)
  /\ map (assoc "type")
         (firstn (List.length (find_all (name_in headings) soup))
                 (_scrape_generic soup))
     = map (fun h => option_map VStr (tag_name h))
           (find_all (name_in headings) soup)
  /\ Forall (fun h => exists nm, tag_name h = Some nm /\ In nm headings)
            (find_all (name_in headings) soup).
Proof.
  assert (Hnames : Forall (fun h => exists nm, tag_name h = Some nm /\ In nm headings)
                          (find_all (name_in headings) soup)).
  { apply Forall_forall. intros h Hh. unfold find_all in Hh.
    apply filter_In in Hh. apply name_in_tag_in. apply Hh. }
  assert (Htypes : map (fun h => Some (match tag_name h with
                                       | Some nm => VStr nm
                                       | None => VNone
                                       end))
                       (find_all (name_in headings) soup)
                   = map (fun h => option_map VStr (tag_name h))
                         (find_all (name_in headings) soup)).
  { apply map_ext_in. intros h Hh. rewrite Forall_forall in Hnames.
    destruct (Hnames h Hh) as [nm [Hnm _]]. rewrite Hnm. reflexivity. }
  rewrite <- Htypes. clear Htypes.
  unfold _scrape_generic.
  set (hl := filter (fun hl => name_in headings (fst hl)) (descendants_ctx soup)).
  set (data := map (fun hl => heading_record (fst hl) (snd hl)) hl).
  assert (Hh : find_all (name_in headings) soup = map fst hl).
  { unfold hl, find_all. rewrite filter_on_fst, descendants_ctx_fst. reflexivity. }
  assert (Hlen : List.length data = List.length (find_all (name_in headings) soup)).
  { unfold data. rewrite Hh, !length_map. reflexivity. }
  assert (Hne : dict_nonempty (unique_links soup)
                = match qualifying_links soup with [] => false | _ => true end).
  { rewrite unique_links_fold.
    destruct (qualifying_links soup) as [|[k v] l]; [reflexivity|].
    cbn [fold_left fst snd].
    assert (Hkeep : forall (l0 : dict string) acc,
               dict_nonempty acc = true ->
               dict_nonempty
                 (fold_left (fun (a : dict string) kv => dict_set (fst kv) (snd kv) a)
                            l0 acc) = true).
    { induction l0 as [|[k0 v0] l0 IHl]; intros acc Hacc; [exact Hacc|].
      cbn [fold_left]. apply IHl. apply dict_set_nonempty. }
    apply Hkeep. reflexivity. }
  assert (Htext : map (assoc "text") data
                  = map (fun h => Some (VStr (get_text_strip h))) (map fst hl)).
  { unfold data. rewrite !map_map. apply map_ext. intros [h later].
    apply (proj2 (heading_record_type_text h later)). }
  assert (Htype : map (assoc "type") data
                  = map (fun h => Some (match tag_name h with
                                        | Some nm => VStr nm
                                        | None => VNone
                                        end)) (map fst hl)).
  { unfold data. rewrite !map_map. apply map_ext. intros [h later].
    apply (proj1 (heading_record_type_text h later)). }
  rewrite Hne. rewrite Hh in *. rewrite <- Hlen.
  destruct (qualifying_links soup) as [|kv l].
  - rewrite firstn_all. split; [lia|].
    split; [exact Htext|]. split; [exact Htype | exact Hnames].
  - rewrite length_app, firstn_app, firstn_all, Nat.sub_diag. simpl firstn.
    rewrite app_nil_r. split; [simpl; lia|].
    split; [exact Htext|]. split; [exact Htype | exact Hnames].
Qed.

(** ** The selector-driven extractor: when it raises, what it returns *)

Section SelectorExtractor.

Variable selector_valid : string -> bool.
Variable select_nodes : string -> node -> list node.

#[local] Abbreviation field_step := (selector_field selector_valid select_nodes).
#[local] Abbreviation extract := (_scrape_with_selectors selector_valid select_nodes).

(** Either every field selector is well-formed or one is not. *)
Lemma fields_valid_or_not (sels : dict string) :
  (forall f s, In (f, s) sels -> f = "container" \/ selector_valid s = true)
  \/ (exists f s, In (f, s) sels /\ f <> "container" /\ selector_valid s = false).
Proof.
  induction sels as [|[f s] sels IH].
  - left. intros f s [].
  - destruct IH as [IH | (f' & s' & Hin & Hf & Hs)].
    + destruct (String.eqb f "container") eqn:E.
      * apply String.eqb_eq in E. left. intros f0 s0 [H | H]; [|apply IH; exact H].
        inversion H; subst. left. reflexivity.
      * destruct (selector_valid s) eqn:Es.
        -- left. intros f0 s0 [H | H]; [|apply IH; exact H].
           inversion H; subst. right. exact Es.
        -- right. exists f, s. split; [left; reflexivity|].
           split; [apply String.eqb_neq; exact E | exact Es].
    + right. exists f', s'. split; [right; exact Hin | split; assumption].
Qed.

(** With a malformed field selector the loop over the fields raises. *)
Lemma fields_raise (container : node) (sels : dict string) (item : record) :
  (exists f s, In (f, s) sels /\ f <> "container" /\ selector_valid s = false) ->
  exists e, for_each (field_step container) sels item = Raise e.
Proof.
  revert item. induction sels as [|[f s] sels IH]; intros item (f' & s' & Hin & Hf & Hs).
  - destruct Hin.
  - simpl. destruct (String.eqb f "container") eqn:E; simpl.
    + apply IH. destruct Hin as [H | H].
      * inversion H; subst. apply String.eqb_eq in E. contradiction.
      * exists f', s'. split; [exact H | split; assumption].
    + unfold select_one, select. destruct (selector_valid s) eqn:Es; simpl.
      * apply IH. destruct Hin as [H | H].
        -- inversion H; subst. congruence.
        -- exists f', s'. split; [exact H | split; assumption].
      * eexists. reflexivity.
Qed.

(** What the loop over the fields raises is the syntax error of a
    malformed field selector. *)
Lemma fields_raise_only (container : node) (sels : dict string) (item : record)
      (e : exn) :
  for_each (field_step container) sels item = Raise e ->
  exists f s, In (f, s) sels /\ f <> "container" /\ selector_valid s = false
              /\ e = SelectorSyntaxError s.
Proof.
  revert item. induction sels as [|[f s] sels IH]; intros item H; simpl in H.
  - discriminate.
  - destruct (String.eqb f "container") eqn:E; simpl in H.
    + destruct (IH _ H) as (f' & s' & Hin & Hrest).
      exists f', s'. split; [right; exact Hin | exact Hrest].
    + unfold select_one, select in H.
      destruct (selector_valid s) eqn:Es; simpl in H.
      * destruct (IH _ H) as (f' & s' & Hin & Hrest).
        exists f', s'. split; [right; exact Hin | exact Hrest].
      * inversion H. exists f, s. split; [left; reflexivity|].
        split; [apply String.eqb_neq; exact E|]. split; [exact Es | reflexivity].
Qed.

Lemma for_each_raise {A S : Type} (body : S -> A -> result S) (l : list A)
      (s : S) (e : exn) :
  for_each body l s = Raise e -> exists s0 x, In x l /\ body s0 x = Raise e.
Proof.
  revert s. induction l as [|x l IH]; intros s H; simpl in H; [discriminate|].
  destruct (body s x) as [s1|e1] eqn:E; simpl in H.
  - destruct (IH _ H) as (s0 & y & Hin & Hy). exists s0, y.
    split; [right; exact Hin | exact Hy].
  - inversion H; subst. exists s, x. split; [left; reflexivity | exact E].
Qed.

Lemma containers_total (sels : dict string) (containers : list node)
      (data : list record) :
  (forall f s, In (f, s) sels -> f = "container" \/ selector_valid s = true) ->
  exists rs,
    for_each (selector_container selector_valid select_nodes sels) containers data
    = Ok rs.
Proof.
  intros Hvalid. revert data.
  induction containers as [|c cs IH]; intros data; simpl.
  - exists data. reflexivity.
  - unfold selector_container at 1.
    destruct (selector_fields_ok selector_valid select_nodes c sels [] Hvalid)
      as [item Hitem].
    rewrite Hitem. simpl. apply IH.
Qed.

(** X9: the selector-driven extractor raises exactly when the
    container selector is malformed, or when it matches at least one
    container and some field selector (a key other than [container])
    is malformed; what it raises is always the selector engine's syntax
    error on one of the configured selectors.  In particular a
    malformed field selector goes unnoticed as long as no container
    matches. *)
Theorem selectors_raise_exactly_when (soup : node) (sels : dict string) :
  ((exists e, extract soup sels = Raise e)
   <-> selector_valid (main_selector sels) = false
       \/ (select_nodes (main_selector sels) soup <> []
           /\ exists f s, In (f, s) sels /\ f <> "container"
                          /\ selector_valid s = false))
  /\ (forall e, extract soup sels = Raise e ->
        exists s, e = SelectorSyntaxError s /\ selector_valid s = false
                  /\ (s = main_selector sels \/ exists f, In (f, s) sels)).
Proof.
  assert (Honly : forall e, extract soup sels = Raise e ->
            (selector_valid (main_selector sels) = false
             /\ e = SelectorSyntaxError (main_selector sels))
            \/ (select_nodes (main_selector sels) soup <> []
                /\ exists f s, In (f, s) sels /\ f <> "container"
                               /\ selector_valid s = false
                               /\ e = SelectorSyntaxError s)).
  { intros e H. unfold _scrape_with_selectors, select in H.
    destruct (selector_valid (main_selector sels)) eqn:Em; simpl in H.
    - right. apply for_each_raise in H. destruct H as (data & c & Hc & H).
      split; [intros Hnil; rewrite Hnil in Hc; destruct Hc|].
      unfold selector_container in H.
      destruct (for_each (field_step c) sels []) as [item|e'] eqn:E;
        simpl in H; [discriminate|].
      inversion H; subst. apply (fields_raise_only c sels [] e E).
    - left. inversion H. split; reflexivity. }
  split; [split|].
  - intros [e H]. destruct (Honly e H) as [[Hm _] | [Hne (f & s & Hin & Hf & Hs & _)]].
    + left. exact Hm.
    + right. split; [exact Hne|]. exists f, s. repeat split; assumption.
  - intros [Hm | [Hne Hbad]].
    + unfold _scrape_with_selectors, select. rewrite Hm. eexists. reflexivity.
    + unfold _scrape_with_selectors, select.
      destruct (selector_valid (main_selector sels)); simpl;
        [|eexists; reflexivity].
      destruct (select_nodes (main_selector sels) soup) as [|c cs]; [congruence|].
      simpl. unfold selector_container at 1.
      destruct (fields_raise c sels [] Hbad) as [e He]. rewrite He. simpl.
      exists e. reflexivity.
  - intros e H. destruct (Honly e H) as [[Hm He] | [_ (f & s & Hin & Hf & Hs & He)]].
    + exists (main_selector sels). split; [exact He|]. split; [exact Hm|].
      left. reflexivity.
    + exists s. split; [exact He|]. split; [exact Hs|]. right. exists f. exact Hin.
Qed.

Lemma for_each_invariant_in {A S : Type} (I : S -> Prop) (body : S -> A -> result S)
      (l : list A) (s r : S) :
  I s ->
  (forall s0 x s1, In x l -> I s0 -> body s0 x = Ok s1 -> I s1) ->
  for_each body l s = Ok r ->
  I r.
Proof.
  revert s. induction l as [|x l IH]; intros s Hs Hstep H; simpl in H.
  - inversion H. subst. exact Hs.
  - destruct (body s x) as [s1|e] eqn:E; simpl in H; [|discriminate].
    apply (IH s1).
    + apply (Hstep s x s1); [left; reflexivity | exact Hs | exact E].
    + intros s0 y s2 Hy. apply Hstep. right. exact Hy.
    + exact H.
Qed.

Lemma set_text_keys (k k' : string) (e : option node) (d : record) :
  In k' (keys (set_text k e d)) -> k' = k \/ In k' (keys d).
Proof.
  destruct e; simpl; [apply dict_set_keys | intros H; right; exact H].
Qed.

(** The records grow by at most one per container. *)
Lemma containers_length (sels : dict string) (containers : list node)
      (data rs : list record) :
  for_each (selector_container selector_valid select_nodes sels) containers data
  = Ok rs ->
  List.length rs <= List.length data + List.length containers.
Proof.
  revert data. induction containers as [|c cs IH]; intros data H; simpl in H.
  - inversion H. subst. lia.
  - unfold selector_container at 1 in H.
    destruct (for_each (field_step c) sels []) as [item|e]; simpl in H;
      [|discriminate].
    apply IH in H. destruct (dict_nonempty item); [rewrite length_app in H|];
      simpl in *; lia.
Qed.

(** X10: when the selector-driven extractor returns, it has produced at
    most one record per matched container; no record is empty, every
    field name of a record is a key of the selector mapping other than
    [container], and no field name occurs twice. *)
Theorem selector_records_shape (soup : node) (sels : dict string)
        (rs : list record) :
  extract soup sels = Ok rs ->
  List.length rs <= List.length (select_nodes (main_selector sels) soup)
  /\ forall r, In r rs ->
       r <> []
       /\ NoDup (keys r)
       /\ forall k, In k (keys r) ->
                    k <> "container" /\ exists s, In (k, s) sels.
Proof.
  unfold _scrape_with_selectors, select. intros H.
  destruct (selector_valid (main_selector sels)); simpl in H; [|discriminate].
  split.
  - apply containers_length in H. simpl in H. exact H.
  - revert H.
    apply (for_each_invariant
             (fun data => forall r, In r data ->
                r <> [] /\ NoDup (keys r)
                /\ forall k, In k (keys r) ->
                             k <> "container" /\ exists s, In (k, s) sels)).
    + intros r [].
    + intros data c data' Hdata Hstep. unfold selector_container in Hstep.
      destruct (for_each (field_step c) sels []) as [item|e] eqn:E;
        simpl in Hstep; [|discriminate].
      inversion Hstep. subst data'. clear Hstep.
      assert (Hitem : NoDup (keys item)
                      /\ forall k, In k (keys item) ->
                                   k <> "container" /\ exists s, In (k, s) sels).
      { revert E.
        apply (for_each_invariant_in
                 (fun it => NoDup (keys it)
                            /\ forall k, In k (keys it) ->
                                 k <> "container" /\ exists s, In (k, s) sels)).
        - split; [constructor | intros k []].
        - intros it [f s] it' Hin [Hnd Hkeys] Hf. unfold selector_field in Hf.
          destruct (String.eqb f "container") eqn:Ef;
            [inversion Hf; subst; split; assumption|].
          destruct (select_one selector_valid select_nodes s c) as [elem|e];
            simpl in Hf; [|discriminate].
          inversion Hf. subst it'. split.
          + destruct elem; simpl; [apply dict_set_nodup; exact Hnd | exact Hnd].
          + intros k Hk. apply set_text_keys in Hk. destruct Hk as [-> | Hk].
            * split; [apply String.eqb_neq; exact Ef | exists s; exact Hin].
            * apply Hkeys. exact Hk. }
      intros r Hr. destruct (dict_nonempty item) eqn:En; [|apply Hdata; exact Hr].
      apply in_app_or in Hr. destruct Hr as [Hr | [<- | []]]; [apply Hdata; exact Hr|].
      split; [intros ->; discriminate | exact Hitem].
Qed.

End SelectorExtractor.

(** X10 at [heading_page] with the selector [h2] for the field
    [title]. *)
Lemma selector_records_shape_witness :
  List.length [[("title", VStr "Hello")]]
  <= List.length (tag_select_nodes (main_selector [("title", "h2")]) heading_page)
  /\ forall r, In r [[("title", VStr "Hello")]] ->
       r <> []
       /\ NoDup (keys r)
       /\ forall k, In k (keys r) ->
                    k <> "container" /\ exists s, In (k, s) [("title", "h2")].
Proof.
  apply (selector_records_shape tag_selector_valid tag_select_nodes heading_page
           [("title", "h2")] [[("title", VStr "Hello")]]).
  vm_compute. reflexivity.
Defined.

(** ** Pagination and [scrape_url] *)

Section ScrapeUrl.

Variable selector_valid : string -> bool.
Variable select_nodes : string -> node -> list node.
Variable page : Type.
Variable goto : string -> option page.
Variable click : page -> string -> option page.
Variable content : page -> node.
Variable page_url : page -> string.

#[local] Abbreviation paginate := (_handle_pagination page click content page_url).
#[local] Abbreviation popups := (_handle_popups page click).
#[local] Abbreviation scrape :=
  (scrape_url selector_valid select_nodes page goto click content page_url).

Lemma pagination_loop_bound (n : nat) (p : page) (cfg : config) :
  pages_auto_detected (fst (pagination_loop page click content page_url n p cfg)) <= n.
Proof.
  revert p. induction n as [|n IH]; intros p;
    [unfold pages_auto_detected; simpl; lia|].
  cbn [pagination_loop].
  destruct (click_next page click p cfg) as [p'|];
    [|unfold pages_auto_detected; simpl; lia].
  specialize (IH p'). unfold _auto_detect_and_scrape.
  destruct (pagination_loop page click content page_url n p' cfg) as [calls' all_data].
  unfold pages_auto_detected in *. cbn [fst snd] in *.
  cbn [filter is_auto_detect_call app List.length]. lia.
Qed.

(** X11: pagination hands at most [max_pages - 1] further documents to
    [_auto_detect_and_scrape] (4 when [max_pages] is not configured);
    it returns nothing when [max_pages] is 1 or less, and nothing when
    no next-page click succeeds on the current page. *)
Theorem pagination_page_bound (p : page) (cfg : config) :
  pages_auto_detected (fst (paginate p cfg))
  <= Z.to_nat (match max_pages cfg with Some m => m | None => 5%Z end - 1)
  /\ ((match max_pages cfg with Some m => m | None => 5%Z end <= 1)%Z ->
      paginate p cfg = ([], []))
  /\ (click_next page click p cfg = None -> paginate p cfg = ([], [])).
Proof.
  unfold _handle_pagination. split; [apply pagination_loop_bound|]. split.
  - intros Hle.
    replace (Z.to_nat (match max_pages cfg with Some m => m | None => 5%Z end - 1))
      with 0 by lia.
    reflexivity.
  - intros Hnone.
    destruct (Z.to_nat _); [reflexivity|]. simpl. rewrite Hnone. reflexivity.
Qed.

(** X12: [scrape_url] only ever appends to the data gathered so far:
    what it returns is the old data followed by what the same call
    returns on a fresh scraper, with the same calls; when the page
    fails to load, or the extractor raises, nothing is appended and
    nothing is raised. *)
Theorem scrape_url_appends (self_data : list record) (url : string)
        (cfg : option config) :
  scrape self_data url cfg
  = (fst (scrape [] url cfg), self_data ++ snd (scrape [] url cfg))
  /\ (goto url = None -> scrape self_data url cfg = ([], self_data))
  /\ (forall calls e,
        scrape_url_try selector_valid select_nodes page goto click content
                       page_url self_data url cfg = (calls, Raise e) ->
        scrape self_data url cfg = (calls, self_data)).
Proof.
  split; [|split].
  - unfold scrape_url, scrape_url_try.
    destruct (goto url) as [p0|]; [|simpl; rewrite app_nil_r; reflexivity].
    destruct (extract_document selector_valid select_nodes (content (popups p0)) url cfg)
      as [calls [data|e]]; [|simpl; rewrite app_nil_r; reflexivity].
    destruct cfg as [c|]; [|reflexivity].
    destruct (pagination c); [|reflexivity].
    destruct (paginate (popups p0) c). reflexivity.
  - intros Hnone. unfold scrape_url, scrape_url_try. rewrite Hnone. reflexivity.
  - intros calls e H. unfold scrape_url. rewrite H. reflexivity.
Qed.

(** X13: a configuration without [selectors] never reaches the selector
    engine: [scrape_url] then gives the same calls and data whatever
    the engine is; and when it has no [pagination] either, it behaves
    as no configuration at all, [max_pages] and [next_button] being
    read by pagination only. *)
Theorem config_without_selectors (self_data : list record) (url : string)
        (c : config) :
  selectors c = None ->
  (forall (selector_valid' : string -> bool)
          (select_nodes' : string -> node -> list node),
      scrape self_data url (Some c)
      = scrape_url selector_valid' select_nodes' page goto click content page_url
                   self_data url (Some c))
  /\ (pagination c = false ->
      scrape self_data url (Some c) = scrape self_data url None).
Proof.
  intros Hsel. destruct c as [s pg mp nb]. simpl in Hsel. subst s. split.
  - intros sv' sn'. unfold scrape_url, scrape_url_try, extract_document.
    reflexivity.
  - simpl. intros ->. unfold scrape_url, scrape_url_try, extract_document.
    destruct (goto url); reflexivity.
Qed.

End ScrapeUrl.

(** X13 at [heading_page], with a configuration that only sets
    [max_pages]. *)
Lemma config_without_selectors_witness :
  scrape_url tag_selector_valid tag_select_nodes node
             (static_goto heading_page) static_click static_content static_url
             [] "http://example.com"
             (Some {| selectors := None; pagination := false;
                      max_pages := Some 3%Z; next_button := None |})
  = scrape_url tag_selector_valid tag_select_nodes node
               (static_goto heading_page) static_click static_content static_url
               [] "http://example.com" None.
Proof.
  apply (proj2 (config_without_selectors
                  tag_selector_valid tag_select_nodes node
                  (static_goto heading_page) static_click static_content static_url
                  [] "http://example.com"
                  {| selectors := None; pagination := false;
                     max_pages := Some 3%Z; next_button := None |} eq_refl)).
  reflexivity.
Defined.

(** ** Saving as CSV *)

Lemma ltb_compare (a b : string) : String.ltb a b = true <-> String.compare a b = Lt.
Proof.
  unfold String.ltb. destruct (String.compare a b); split; congruence.
Qed.

Lemma str_lt_trans (a b c : string) : str_lt a b -> str_lt b c -> str_lt a c.
Proof.
  unfold str_lt. rewrite !ltb_compare.
  intros H1 H2.
  apply OrderedTypeEx.String_as_OT.cmp_lt.
  apply OrderedTypeEx.String_as_OT.cmp_lt in H1.
  apply OrderedTypeEx.String_as_OT.cmp_lt in H2.
  eapply OrderedTypeEx.String_as_OT.lt_trans; eassumption.
Qed.

Lemma leb_neq_lt (a b : string) : String.leb a b = true -> a <> b -> str_lt a b.
Proof.
  unfold String.leb, str_lt. intros H Hne. apply ltb_compare.
  destruct (String.compare a b) eqn:E; [|reflexivity | discriminate].
  apply String.compare_eq_iff in E. contradiction.
Qed.

Lemma leb_false_lt (a b : string) : String.leb a b = false -> str_lt b a.
Proof.
  unfold String.leb, str_lt. intros H. apply ltb_compare.
  rewrite String.compare_antisym.
  destruct (String.compare a b); try discriminate. reflexivity.
Qed.

Lemma in_insert_sorted (x k : string) (l : list string) :
  In x (insert_sorted k l) <-> x = k \/ In x l.
Proof.
  induction l as [|y l IH]; simpl.
  - split; [intros [H | []]; left; symmetry; exact H | intros [H | []]; left; symmetry; exact H].
  - destruct (String.leb k y); simpl.
    + split; [intros [H | H]; [left; symmetry; exact H | right; exact H]
             | intros [H | H]; [left; symmetry; exact H | right; exact H]].
    + rewrite IH. split.
      * intros [H | [H | H]]; [right; left; exact H | left; exact H | right; right; exact H].
      * intros [H | [H | H]]; [right; left; exact H | left; exact H | right; right; exact H].
Qed.

Lemma in_sorted (x : string) (l : list string) : In x (sorted l) <-> In x l.
Proof.
  induction l as [|y l IH]; simpl; [reflexivity|].
  rewrite in_insert_sorted, IH. split; intros [H | H]; auto.
Qed.

Lemma insert_sorted_strict (k : string) (l : list string) :
  StronglySorted str_lt l -> ~ In k l -> StronglySorted str_lt (insert_sorted k l).
Proof.
  induction l as [|y l IH]; intros Hs Hk; simpl.
  - constructor; constructor.
  - inversion Hs as [|? ? Hs' Hall]; subst.
    destruct (String.leb k y) eqn:E.
    + assert (Hky : str_lt k y).
      { apply leb_neq_lt; [exact E|]. intros ->. apply Hk. left. reflexivity. }
      constructor; [exact Hs|]. constructor; [exact Hky|].
      eapply Forall_impl; [|exact Hall]. intros z Hz.
      apply (str_lt_trans k y z Hky Hz).
    + constructor.
      * apply IH; [exact Hs'|]. intros H. apply Hk. right. exact H.
      * apply Forall_forall. intros z Hz. apply in_insert_sorted in Hz.
        destruct Hz as [-> | Hz]; [apply leb_false_lt; exact E|].
        rewrite Forall_forall in Hall. apply Hall. exact Hz.
Qed.

Lemma sorted_strict (l : list string) :
  NoDup l -> StronglySorted str_lt (sorted l).
Proof.
  induction l as [|y l IH]; intros Hnd; simpl; [constructor|].
  inversion Hnd; subst. apply insert_sorted_strict; [apply IH; assumption|].
  rewrite in_sorted. assumption.
Qed.

Lemma in_set_add (x k : string) (s : list string) :
  In x (set_add k s) <-> x = k \/ In x s.
Proof.
  unfold set_add. destruct (existsb (String.eqb k) s) eqn:E.
  - split; [intros H; right; exact H|]. intros [-> | H]; [|exact H].
    apply existsb_exists in E. destruct E as [y [Hy Heq]].
    apply String.eqb_eq in Heq. subst y. exact Hy.
  - simpl. split; intros [H | H]; auto.
Qed.

Lemma set_add_nodup (k : string) (s : list string) :
  NoDup s -> NoDup (set_add k s).
Proof.
  intros Hs. unfold set_add. destruct (existsb (String.eqb k) s) eqn:E; [exact Hs|].
  constructor; [|exact Hs]. intros Hin.
  assert (Ht : existsb (String.eqb k) s = true).
  { apply existsb_exists. exists k. split; [exact Hin | apply String.eqb_refl]. }
  congruence.
Qed.

Lemma set_update_spec (ks : list string) (s : list string) :
  (NoDup s -> NoDup (set_update ks s))
  /\ forall x, In x (set_update ks s) <-> In x ks \/ In x s.
Proof.
  unfold set_update. revert s. induction ks as [|k ks IH]; intros s; simpl.
  - split; [auto|]. intros x. split; [auto | intros [[] | H]; exact H].
  - destruct (IH (set_add k s)) as [Hnd Hin]. split.
    + intros Hs. apply Hnd. apply set_add_nodup. exact Hs.
    + intros x. rewrite Hin, in_set_add. split.
      * intros [H | [H | H]]; [left; right; exact H | left; left; symmetry; exact H
                              | right; exact H].
      * intros [[H | H] | H]; [right; left; symmetry; exact H | left; exact H
                              | right; right; exact H].
Qed.

Lemma all_keys_from (data : list record) (acc : list string) :
  (NoDup acc ->
   NoDup (fold_left (fun a item => set_update (keys item) a) data acc))
  /\ forall x,
       In x (fold_left (fun a item => set_update (keys item) a) data acc)
       <-> (exists r, In r data /\ In x (keys r)) \/ In x acc.
Proof.
  revert acc. induction data as [|r data IH]; intros acc; simpl.
  - split; [auto|]. intros x. split; [auto|]. intros [[r [[] _]] | H]. exact H.
  - destruct (IH (set_update (keys r) acc)) as [Hnd Hin].
    destruct (set_update_spec (keys r) acc) as [Hnd' Hin']. split.
    + intros Hacc. apply Hnd. apply Hnd'. exact Hacc.
    + intros x. rewrite Hin, Hin'. split.
      * intros [[r' [Hr' Hx]] | [H | H]].
        -- left. exists r'. split; [right; exact Hr' | exact Hx].
        -- left. exists r. split; [left; reflexivity | exact H].
        -- right. exact H.
      * intros [[r' [[<- | Hr'] Hx]] | H].
        -- right. left. exact Hx.
        -- left. exists r'. split; assumption.
        -- right. right. exact H.
Qed.

(** The header holds exactly the keys of the records. *)
Lemma header_keys (data : list record) (k : string) :
  In k (sorted (all_keys data)) <-> exists r, In r data /\ In k (keys r).
Proof.
  rewrite in_sorted. unfold all_keys.
  rewrite (proj2 (all_keys_from data [])). split.
  - intros [H | []]. exact H.
  - intros H. left. exact H.
Qed.

(** With every key in the field names no row raises. *)
Lemma writerows_ok (fieldnames : list string) (data : list record) :
  (forall r k, In r data -> In k (keys r) -> In k fieldnames) ->
  writerows fieldnames data
  = (map (fun r => map (fun key => match assoc key r with
                                   | Some v => v
                                   | None => VStr ""
                                   end) fieldnames) data,
     false).
Proof.
  induction data as [|r data IH]; intros H; simpl; [reflexivity|].
  unfold dict_to_list.
  assert (Hall : forallb (fun k => existsb (String.eqb k) fieldnames) (keys r) = true).
  { apply forallb_forall. intros k Hk. apply existsb_exists. exists k.
    split; [apply (H r k (or_introl eq_refl) Hk) | apply String.eqb_refl]. }
  rewrite Hall, IH; [reflexivity|].
  intros r' k Hr'. apply H. right. exact Hr'.
Qed.

Lemma save_to_csv_written (r0 : record) (data : list record) :
  save_to_csv (r0 :: data)
  = Written (sorted (all_keys (r0 :: data)))
            (map (fun r => map (fun key => match assoc key r with
                                           | Some v => v
                                           | None => VStr ""
                                           end)
                               (sorted (all_keys (r0 :: data))))
                 (r0 :: data)).
Proof.
  unfold save_to_csv. rewrite writerows_ok; [reflexivity|].
  intros r k Hr Hk. apply header_keys. exists r. split; assumption.
Qed.

(** X14: [save_to_csv] writes nothing for empty data; otherwise the
    header it writes is the set of all field names occurring in any
    record, each once, in strictly increasing code-point order, one
    row is written per record, and the [ValueError] the CSV writer
    raises for a field outside the header cannot occur. *)
Theorem save_to_csv_header (data : list record) :
  (save_to_csv data = NoDataToSave <-> data = [])
  /\ (data <> [] ->
      exists header rows,
        save_to_csv data = Written header rows
        /\ StronglySorted str_lt header
        /\ (forall k, In k header <-> exists r, In r data /\ In k (keys r))
        /\ List.length rows = List.length data).
Proof.
  split.
  - destruct data as [|r0 data].
    + split; reflexivity.
    + rewrite save_to_csv_written. split; discriminate.
  - intros Hne. destruct data as [|r0 data]; [congruence|].
    eexists. eexists. split; [apply save_to_csv_written|].
    split; [|split].
    + apply sorted_strict. unfold all_keys.
      apply (proj1 (all_keys_from (r0 :: data) [])). constructor.
    + intros k. apply header_keys.
    + rewrite length_map. reflexivity.
Qed.

(** X15: in the CSV written, the row of a record has one cell per
    header column; the cell under a field name is the record's value
    for it, or the empty string when the record lacks the field; and
    no field of the record is lost: each has its column. *)
Theorem save_to_csv_cells (data : list record) (header : list string)
        (rows : list (list pyval)) (i : nat) (r : record) :
  save_to_csv data = Written header rows ->
  nth_error data i = Some r ->
  exists cells,
    nth_error rows i = Some cells
    /\ List.length cells = List.length header
    /\ (forall j k, nth_error header j = Some k ->
                    nth_error cells j
                    = Some (match assoc k r with Some v => v | None => VStr "" end))
    /\ (forall k v, assoc k r = Some v ->
                    exists j, nth_error header j = Some k
                              /\ nth_error cells j = Some v).
Proof.
  intros Hw Hr. destruct data as [|r0 data]; [discriminate|].
  rewrite save_to_csv_written in Hw.
  assert (Hh : sorted (all_keys (r0 :: data)) = header) by congruence.
  assert (Hrows : rows
                  = map (fun r => map (fun key => match assoc key r with
                                                  | Some v => v
                                                  | None => VStr ""
                                                  end) header) (r0 :: data))
    by (rewrite <- Hh; congruence).
  clear Hw.
  set (cell := fun (r : record) (key : string) =>
                 match assoc key r with Some v => v | None => VStr "" end).
  exists (map (cell r) header).
  assert (Hcells : forall j k, nth_error header j = Some k ->
                     nth_error (map (cell r) header) j = Some (cell r k)).
  { intros j k Hj. apply (map_nth_error (cell r) j header Hj). }
  split; [|split; [|split]].
  - rewrite Hrows.
    apply (map_nth_error
             (fun r => map (fun key => match assoc key r with
                                       | Some v => v
                                       | None => VStr ""
                                       end) header) i (r0 :: data) Hr).
  - apply length_map.
  - exact Hcells.
  - intros k v Hk.
    assert (Hin : In k header).
    { rewrite <- Hh. apply header_keys. exists r.
      split; [eapply nth_error_In; exact Hr|].
      apply assoc_in in Hk. apply in_map_iff. exists (k, v). split; [reflexivity | exact Hk]. }
    apply In_nth_error in Hin. destruct Hin as [j Hj].
    exists j. split; [exact Hj|]. rewrite (Hcells j k Hj). unfold cell.
    rewrite Hk. reflexivity.
Qed.

(** X15 on two records with different fields. *)
Lemma save_to_csv_cells_witness :
  exists cells,
    nth_error [[VStr "x"; VStr ""]; [VInt 1; VStr "y"]] 1 = Some cells
    /\ List.length cells = List.length ["a"; "b"]
    /\ (forall j k, nth_error ["a"; "b"] j = Some k ->
                    nth_error cells j
                    = Some (match assoc k [("b", VStr "y"); ("a", VInt 1)] with
                            | Some v => v
                            | None => VStr ""
                            end))
    /\ (forall k v, assoc k [("b", VStr "y"); ("a", VInt 1)] = Some v ->
                    exists j, nth_error ["a"; "b"] j = Some k
                              /\ nth_error cells j = Some v).
Proof.
  apply (save_to_csv_cells [[("a", VStr "x")]; [("b", VStr "y"); ("a", VInt 1)]]
                           ["a"; "b"] [[VStr "x"; VStr ""]; [VInt 1; VStr "y"]] 1).
  - vm_compute. reflexivity.
  - reflexivity.
Defined.

(** ** The command line *)

Lemma endswith_append (a b : string) : endswith (String.append a b) b = true.
Proof.
  induction a as [|c a IH].
  - cbn [String.append]. destruct b; cbn [endswith];
      rewrite String.eqb_refl; reflexivity.
  - cbn [String.append endswith]. rewrite IH. apply orb_true_r.
Qed.

Lemma endswith_append2 (a b c : string) :
  endswith (String.append a (String.append b c)) c = true.
Proof.
  induction a as [|x a IH].
  - cbn [String.append]. apply endswith_append.
  - cbn [String.append endswith]. rewrite IH. apply orb_true_r.
Qed.

(** X16: the file [main] saves always has a name ending in [.json] or
    [.csv], matching the format written: a given name with one of
    these endings is used as it is, any other given name is saved as
    JSON under the name with [.json] appended, and without a name the
    data go to a time-stamped [.json] file; CSV is written only for a
    given name ending in [.csv]. *)
Theorem output_plan_extension (output : option string) (timestamp : string) :
  (fst (output_plan output timestamp) = ToJson ->
   endswith (snd (output_plan output timestamp)) ".json" = true)
  /\ (fst (output_plan output timestamp) = ToCsv ->
      endswith (snd (output_plan output timestamp)) ".csv" = true
      /\ output = Some (snd (output_plan output timestamp)))
  /\ (forall out,
        output = Some out -> PyStr.nonempty out = true ->
        (endswith out ".json" = true \/ endswith out ".csv" = true) ->
        snd (output_plan output timestamp) = out)
  /\ (forall out,
        output = Some out -> PyStr.nonempty out = true ->
        endswith out ".json" = false -> endswith out ".csv" = false ->
        output_plan output timestamp = (ToJson, String.append out ".json")).
Proof.
  unfold output_plan.
  destruct output as [out|].
  - destruct (PyStr.nonempty out) eqn:En.
    + destruct (endswith out ".json") eqn:Ej.
      * split; [intros _; exact Ej|]. split; [discriminate|].
        split; [intros o Ho; inversion Ho; reflexivity|].
        intros o Ho _ Hj. inversion Ho; subst. congruence.
      * destruct (endswith out ".csv") eqn:Ec.
        -- split; [discriminate|]. split; [intros _; split; [exact Ec | reflexivity]|].
           split; [intros o Ho; inversion Ho; reflexivity|].
           intros o Ho _ _ Hc. inversion Ho; subst. congruence.
        -- split; [intros _; apply endswith_append|]. split; [discriminate|].
           split.
           ++ intros o Ho _ [H | H]; inversion Ho; subst; congruence.
           ++ intros o Ho _ _ _. inversion Ho; subst. reflexivity.
    + split; [intros _; cbn [snd]; apply endswith_append2|].
      split; [discriminate|].
      split; intros o Ho Hn; inversion Ho; subst; congruence.
  - split; [intros _; cbn [snd]; apply endswith_append2|].
    split; [discriminate|].
    split; intros o Ho; discriminate.
Qed.

(** X17: [--pages] left out, or given as 0, leaves the configuration
    as loaded and turns no pagination on; a non-zero [--pages n] turns
    pagination on with [max_pages = n] and keeps the loaded selectors,
    so that at most [n - 1] further pages are scraped, none for
    [n = 1] or a negative [n]. *)
Theorem main_pages_flag (loaded : option config) (n : Z) :
  main_config loaded None = loaded
  /\ main_config loaded (Some 0%Z) = loaded
  /\ (n <> 0%Z ->
      exists c,
        main_config loaded (Some n) = Some c
        /\ pagination c = true
        /\ max_pages c = Some n
        /\ selectors c = match loaded with Some l => selectors l | None => None end
        /\ forall (page : Type) (click : page -> string -> option page)
                  (content : page -> node) (page_url : page -> string) (p : page),
             pages_auto_detected
               (fst (_handle_pagination page click content page_url p c))
             <= Z.to_nat (n - 1)).
Proof.
  split; [reflexivity|]. split; [reflexivity|].
  intros Hn. unfold main_config.
  assert (E : Z.eqb n 0 = false) by (apply Z.eqb_neq; exact Hn).
  rewrite E. simpl negb. cbv iota.
  eexists. split; [reflexivity|]. split; [reflexivity|]. split; [reflexivity|].
  split; [destruct loaded; reflexivity|].
  intros page click content page_url p. unfold _handle_pagination.
  cbn [max_pages]. apply pagination_loop_bound.
Qed.

(** X17 with [--pages 3] and no configuration file. *)
Lemma main_pages_flag_witness :
  exists c,
    main_config None (Some 3%Z) = Some c
    /\ pagination c = true
    /\ max_pages c = Some 3%Z
    /\ selectors c = None
    /\ forall (page : Type) (click : page -> string -> option page)
              (content : page -> node) (page_url : page -> string) (p : page),
         pages_auto_detected
           (fst (_handle_pagination page click content page_url p c))
         <= Z.to_nat (3 - 1).
Proof.
  apply (proj2 (proj2 (main_pages_flag None 3%Z))). lia.
Defined.

(** ** Classifier signals and what extraction then finds *)

Lemma in_list_sum_le (g : node -> nat) (l : list node) (x : node) :
  In x l -> g x <= list_sum (map g l).
Proof.
  induction l as [|y l IH]; intros H; [destruct H|].
  simpl. destruct H as [<- | H]; [lia|]. specialize (IH H). lia.
Qed.

(** X18: a [<ul>]/[<ol>] with at least 3 direct [<li>] children
    contributes all of them: list extraction then yields at least as
    many records as that list has items, so it is never empty on a
    document with such a list. *)
Theorem list_with_items_is_extracted (soup lst : node) :
  In lst (find_all (name_in ["ul"; "ol"]) soup) ->
  3 <= List.length (list_items lst) ->
  List.length (list_items lst) <= List.length (_scrape_lists soup)
  /\ _scrape_lists soup <> [].
Proof.
  intros Hin Hlen.
  assert (Hcount : List.length (_scrape_lists soup)
                   = list_sum (map list_contribution
                                   (find_all (name_in ["ul"; "ol"]) soup))).
  { unfold _scrape_lists, enumerate.
    apply (flat_map_indexed_length scrape_list list_contribution).
    apply scrape_list_length. }
  assert (Hc : list_contribution lst = List.length (list_items lst)).
  { unfold list_contribution.
    destruct (List.length (list_items lst) <? 3) eqn:E; [|reflexivity].
    apply Nat.ltb_lt in E. lia. }
  pose proof (in_list_sum_le list_contribution _ lst Hin) as Hle.
  rewrite Hc, <- Hcount in Hle.
  split; [exact Hle|].
  intros Hnil. rewrite Hnil in Hle. simpl in Hle. lia.
Qed.

(** X18 at [six_item_page]. *)
Lemma list_with_items_is_extracted_witness :
  6 <= List.length (_scrape_lists six_item_page)
  /\ _scrape_lists six_item_page <> [].
Proof.
  apply (list_with_items_is_extracted six_item_page
           (el "ol"
               [ el "li" [Text "1"]; el "li" [Text "2"]; el "li" [Text "3"];
                 el "li" [Text "4"]; el "li" [Text "5"]; el "li" [Text "6"] ])).
  - vm_compute. left. reflexivity.
  - vm_compute. lia.
Defined.


(** ** Fields that extraction stores *)



Lemma table_row_data_keys (headers : list string) (l : list (nat * node))
      (acc : record) (k : string) :
  In k (keys (fold_left (table_cell headers) l acc)) ->
  In k headers \/ In k (keys acc).
Proof.
  revert acc. induction l as [|[idx c] l IH]; intros acc H; [right; exact H|].
  cbn [fold_left] in H. apply IH in H. destruct H as [H | H]; [left; exact H|].
  unfold table_cell in H. destruct (idx <? List.length headers) eqn:E; [|right; exact H].
  apply dict_set_keys in H. destruct H as [-> | H]; [|right; exact H].
  left. apply nth_In. apply Nat.ltb_lt. exact E.
Qed.

(** X21: a table record has no field but the header names and
    [_table_index], each at most once: cells beyond the last header
    are dropped, so a record never has more than one field per header
    plus the index. *)
Theorem table_record_fields (headers : list string) (table_idx : nat)
        (rw : node) (r : record) :
  In r (table_row headers table_idx rw) ->
  NoDup (keys r)
  /\ (forall k, In k (keys r) -> k = "_table_index" \/ In k headers)
  /\ List.length r <= S (List.length headers).
Proof.
  intros Hr. unfold table_row in Hr.
  destruct (List.length _ =? 0); [destruct Hr|].
  destruct (dict_nonempty _); [|destruct Hr].
  destruct Hr as [<- | []].
  destruct (table_row_data_fits headers
              (enumerate (find_all (name_in ["td"; "th"]) rw)) []
              (conj eq_refl (NoDup_nil _))) as [_ Hnd].
  assert (Hnd' : NoDup (keys (dict_set "_table_index" (vint table_idx)
                                       (table_row_data headers
                                          (find_all (name_in ["td"; "th"]) rw)))))
    by (apply dict_set_nodup; exact Hnd).
  assert (Hkeys : forall k,
             In k (keys (dict_set "_table_index" (vint table_idx)
                                  (table_row_data headers
                                     (find_all (name_in ["td"; "th"]) rw)))) ->
             k = "_table_index" \/ In k headers).
  { intros k Hk. apply dict_set_keys in Hk. destruct Hk as [-> | Hk]; [left; reflexivity|].
    apply table_row_data_keys in Hk. destruct Hk as [Hk | []]. right. exact Hk. }
  split; [exact Hnd'|]. split; [exact Hkeys|].
  assert (Hincl : incl (keys (dict_set "_table_index" (vint table_idx)
                                       (table_row_data headers
                                          (find_all (name_in ["td"; "th"]) rw))))
                       ("_table_index" :: headers)).
  { intros k Hk. destruct (Hkeys k Hk) as [-> | H]; [left; reflexivity | right; exact H]. }
  apply (NoDup_incl_length Hnd') in Hincl. unfold keys in Hincl.
  rewrite length_map in Hincl. exact Hincl.
Qed.


(** X21 at a row of three cells under two headers. *)
Lemma table_record_fields_witness :
  NoDup (keys [("Name", VStr "Alice"); ("Score", VStr "10"); ("_table_index", VInt 0)])
  /\ (forall k,
        In k (keys [("Name", VStr "Alice"); ("Score", VStr "10");
                    ("_table_index", VInt 0)]) ->
        k = "_table_index" \/ In k ["Name"; "Score"])
  /\ List.length [("Name", VStr "Alice"); ("Score", VStr "10");
                  ("_table_index", VInt 0)]
     <= S (List.length ["Name"; "Score"]).
Proof.
  apply (table_record_fields ["Name"; "Score"] 0 (row ["Alice"; "10"; "extra"])).
  vm_compute. left. reflexivity.
Defined.

(** ** The further properties on concrete inputs *)

(** X9 at [heading_page]: the malformed selector of [bad_field_config]
    makes the extractor raise, a container being matched. *)
Lemma selectors_raise_exactly_when_witness :
  exists e,
    _scrape_with_selectors tag_selector_valid tag_select_nodes heading_page
                           [("title", "h2[")] = Raise e.
Proof.
  apply (proj2 (proj1 (selectors_raise_exactly_when
                         tag_selector_valid tag_select_nodes heading_page
                         [("title", "h2[")]))).
  right. split; [vm_compute; discriminate|].
  exists "title", "h2[". split; [left; reflexivity|].
  split; [discriminate | reflexivity].
Defined.

(** X11 on a browser where no click succeeds. *)
Lemma pagination_page_bound_witness :
  _handle_pagination node static_click static_content static_url heading_page
                     good_config = ([], []).
Proof.
  apply (proj2 (proj2 (pagination_page_bound node static_click static_content
                         static_url heading_page good_config))).
  reflexivity.
Defined.

(** X12 on a browser where the page does not load. *)
Lemma scrape_url_appends_witness :
  scrape_url tag_selector_valid tag_select_nodes node failing_goto static_click
             static_content static_url
             [[("title", VStr "kept")]] "http://example.com" (Some good_config)
  = ([], [[("title", VStr "kept")]]).
Proof.
  apply (proj1 (proj2 (scrape_url_appends
                         tag_selector_valid tag_select_nodes node failing_goto
                         static_click static_content static_url
                         [[("title", VStr "kept")]] "http://example.com"
                         (Some good_config)))).
  reflexivity.
Defined.

(** X14 on two records with different fields. *)
Lemma save_to_csv_header_witness :
  exists header rows,
    save_to_csv [[("b", VStr "y")]; [("a", VInt 1); ("b", VStr "z")]]
    = Written header rows
    /\ StronglySorted str_lt header
    /\ (forall k, In k header
                  <-> exists r,
                        In r [[("b", VStr "y")]; [("a", VInt 1); ("b", VStr "z")]]
                        /\ In k (keys r))
    /\ List.length rows
       = List.length [[("b", VStr "y")]; [("a", VInt 1); ("b", VStr "z")]].
Proof.
  apply (proj2 (save_to_csv_header
                  [[("b", VStr "y")]; [("a", VInt 1); ("b", VStr "z")]])).
  discriminate.
Defined.

(** X16 with the name [data.txt]. *)
Lemma output_plan_extension_witness :
  output_plan (Some "data.txt") "20240101_120000" = (ToJson, "data.txt.json").
Proof.
  apply (proj2 (proj2 (proj2 (output_plan_extension (Some "data.txt")
                                                    "20240101_120000")))
               "data.txt" eq_refl); reflexivity.
Defined.

